(** * RBBIRuleBuilder (icu4c/source/common/rbbirb.cpp)

    A shallow embedding of the break-rule compiler's orchestrator and of its
    binary flattener, with the properties of the data layout, of the table
    minimisation loop and of the failure paths.

    Conventions.
    - [int32_t] and [uint32_t] values are integers of [Z]; every conversion
      between the two is written out, and the properties keep the signed
      sums within [int32_t].
    - Memory is a list of bytes (each an integer of [Z]); a store outside of
      the buffer leaves the list unchanged.
    - A pointer that may be [NULL] is an [option].
    - [UErrorCode] is an integer; [U_FAILURE] is [> U_ZERO_ERROR]. *)

From Stdlib Require Import ZArith Lia Bool.

From stdpp Require Import base list.

Local Open Scope Z_scope.

(** ** Machine integers *)

Module Int32.

Definition modulus : Z := 4294967296.
Definition max_signed : Z := 2147483647.

(** Conversion to [uint32_t]. *)
Definition to_uint32 (z : Z) : Z := z mod modulus.

(** Conversion to [int32_t] (two's complement). *)
Definition to_int32 (z : Z) : Z := (z + 2147483648) mod modulus - 2147483648.

End Int32.

(** ** [align8] (rbbirb.cpp, line 133)

    [static int32_t align8(int32_t i) {return (i+7) & 0xfffffff8;}]

    The sum is an [int]; the mask is an [unsigned] constant, so the sum is
    converted to [uint32_t] for the conjunction and the result is converted
    back to [int32_t].  For [i] above [INT32_MAX - 7] the sum overflows,
    which C leaves undefined: what the definition gives there stands for
    nothing the code guarantees, and every property below keeps [i] at or
    under [INT32_MAX - 7]. *)
Definition align8 (i : Z) : Z :=
  Int32.to_int32 (Z.land (Int32.to_uint32 (i + 7)) 0xfffffff8).

(** ** Error codes (unicode/utypes.h)

    [U_FAILURE(x)] is [x > U_ZERO_ERROR]; warnings are negative. *)
Definition UErrorCode := Z.

Definition U_ZERO_ERROR : UErrorCode := 0.

Definition U_ILLEGAL_ARGUMENT_ERROR : UErrorCode := 1.

Definition U_MEMORY_ALLOCATION_ERROR : UErrorCode := 7.

Definition U_FAILURE (x : UErrorCode) : bool := U_ZERO_ERROR <? x.

Definition U_SUCCESS (x : UErrorCode) : bool := x <=? U_ZERO_ERROR.

(** ** Outcomes

    A computation returns, dereferences a [NULL] pointer (undefined
    behaviour), or runs for ever. *)
Inductive outcome (A : Type) : Type :=
| Ok (a : A)
| NullDereference
| Diverges.

Arguments Ok {A} a.

Arguments NullDereference {A}.

Arguments Diverges {A}.

Definition obind {A B} (m : outcome A) (k : A -> outcome B) : outcome B :=
  match m with
  | Ok a => k a
  | NullDereference => NullDereference
  | Diverges => Diverges
  end.

(** [deref p] is the object a pointer designates. *)
Definition deref {A} (p : option A) : outcome A :=
  match p with
  | Some a => Ok a
  | None => NullDereference
  end.

Notation "'let!' x ':=' m 'in' k" := (obind m (fun x => k))
  (at level 10, x pattern, m at level 100, k at level 200).

(** ** Memory *)

Definition byte := Z.

Definition memory := list byte.

(** [uprv_memset(p, v, n)] on a block that starts at [p]. *)
Definition uprv_memset (m : memory) (v : byte) (n : Z) : memory :=
  list_inserts 0 (replicate (Z.to_nat n) v) m.

(** Copy of [bs] to the block at byte offset [off]. *)
Definition write_bytes (off : Z) (bs : list byte) (m : memory) : memory :=
  list_inserts (Z.to_nat off) bs m.

(** The byte at offset [i]. *)
Definition byte_at (m : memory) (i : Z) : option byte := m !! Z.to_nat i.

Section ByteOrder.

(** [U_IS_BIG_ENDIAN] of the platform. *)
Variable U_IS_BIG_ENDIAN : bool.

Definition le_bytes (n : nat) (v : Z) : list byte :=
  map (fun k => (v / 2 ^ (8 * Z.of_nat k)) mod 256) (seq 0 n).

(** The [n] bytes of the unsigned value [v] in the platform's order. *)
Definition int_bytes (n : nat) (v : Z) : list byte :=
  if U_IS_BIG_ENDIAN then rev (le_bytes n v) else le_bytes n v.

Fixpoint le_value (bs : list byte) : Z :=
  match bs with
  | [] => 0
  | b :: bs' => b + 256 * le_value bs'
  end.

Definition int_value (bs : list byte) : Z :=
  if U_IS_BIG_ENDIAN then le_value (rev bs) else le_value bs.

(** A store to a [uint32_t] object at byte offset [off]. *)
Definition store32 (off : Z) (v : Z) (m : memory) : memory :=
  write_bytes off (int_bytes 4 (Int32.to_uint32 v)) m.

(** The [uint32_t] object at byte offset [off]. *)
Definition load32 (m : memory) (off : Z) : Z :=
  int_value (take 4 (drop (Z.to_nat off) m)).

(** A sequence of 16-bit code units. *)
Definition u16_bytes (us : list Z) : list byte :=
  flat_map (fun u => int_bytes 2 (u mod 65536)) us.

(** A sequence of [int32_t] values. *)
Definition i32_bytes (vs : list Z) : list byte :=
  flat_map (fun v => int_bytes 4 (Int32.to_uint32 v)) vs.

End ByteOrder.

(** ** Data model *)

(** A string of UTF-16 code units ([UnicodeString]). *)
Definition UnicodeString := list Z.

(** [UParseError] (unicode/parseerr.h); [U_PARSE_CONTEXT_LEN] is 16. *)
Record UParseError : Type := mkUParseError {
  line : Z;
  offset : Z;
  preContext : list Z;
  postContext : list Z
}.

(** [uprv_memset(parseErr, 0, sizeof(UParseError))]. *)
Definition UParseError_zero : UParseError :=
  {| line := 0; offset := 0;
     preContext := replicate 16 0; postContext := replicate 16 0 |}.

(** A node of a parse tree (rbbinode.h); only its shape matters here. *)
Inductive RBBINode : Type :=
| leafNode (fVal : Z)
| unaryNode (fType : Z) (fLeftChild : RBBINode)
| binaryNode (fType : Z) (fLeftChild fRightChild : RBBINode).

(** [IntPair] (rbbirb.h). *)
Record IntPair : Type := mkIntPair { first : Z; second : Z }.

(** A row of the transition table (rbbitblb.h): the accepting and
    look-ahead marks, the index of the tags and one next state for every
    character category. *)
Record RBBIStateDescriptor : Type := mkSD {
  fAccepting : Z;
  fLookAhead : Z;
  fTagsIdx : Z;
  fDtran : list Z
}.

(** The table builder: the rows of the forward table and the safe reverse
    table. *)
Record RBBITableBuilder : Type := mkTB {
  fDStates : list RBBIStateDescriptor;
  fSafeTable : list (list Z)
}.

(** The set builder: the category number of every range of the partition
    of the code points, the number of categories above the three reserved
    ones, and the frozen trie. *)
Record RBBISetBuilder : Type := mkSB {
  fRangeList : list Z;
  fGroupCount : Z;
  fTrie : list byte
}.

(** The scanner is a handle: its state is not part of the builder. *)
Inductive RBBIRuleScanner : Type := RBBIRuleScanner_obj.

(** [RBBIRuleBuilder] (rbbirb.h).  [fStatus] and [fParseError] designate
    objects of the caller; the record holds their current contents. *)
Record RBBIRuleBuilder : Type := mkRB {
  fStatus : UErrorCode;
  fParseError : option UParseError;
  fRules : UnicodeString;
  fStrippedRules : UnicodeString;
  fForwardTree : option RBBINode;
  fReverseTree : option RBBINode;
  fSafeFwdTree : option RBBINode;
  fSafeRevTree : option RBBINode;
  fForwardTable : option RBBITableBuilder;
  fRuleStatusVals : option (list Z);
  fChainRules : bool;
  fLBCMNoChain : bool;
  fLookAheadHardBreak : bool;
  fUSetNodes : option (list RBBINode);
  fScanner : option RBBIRuleScanner;
  fSetBuilder : option RBBISetBuilder
}.

Definition set_fStatus (s : UErrorCode) (rb : RBBIRuleBuilder) :=
  mkRB s (fParseError rb) (fRules rb) (fStrippedRules rb)
    (fForwardTree rb) (fReverseTree rb) (fSafeFwdTree rb) (fSafeRevTree rb)
    (fForwardTable rb) (fRuleStatusVals rb) (fChainRules rb) (fLBCMNoChain rb)
    (fLookAheadHardBreak rb) (fUSetNodes rb) (fScanner rb) (fSetBuilder rb).

Definition set_fParseError (p : option UParseError) (rb : RBBIRuleBuilder) :=
  mkRB (fStatus rb) p (fRules rb) (fStrippedRules rb)
    (fForwardTree rb) (fReverseTree rb) (fSafeFwdTree rb) (fSafeRevTree rb)
    (fForwardTable rb) (fRuleStatusVals rb) (fChainRules rb) (fLBCMNoChain rb)
    (fLookAheadHardBreak rb) (fUSetNodes rb) (fScanner rb) (fSetBuilder rb).

Definition set_fStrippedRules (u : UnicodeString) (rb : RBBIRuleBuilder) :=
  mkRB (fStatus rb) (fParseError rb) (fRules rb) u
    (fForwardTree rb) (fReverseTree rb) (fSafeFwdTree rb) (fSafeRevTree rb)
    (fForwardTable rb) (fRuleStatusVals rb) (fChainRules rb) (fLBCMNoChain rb)
    (fLookAheadHardBreak rb) (fUSetNodes rb) (fScanner rb) (fSetBuilder rb).

Definition set_fForwardTable (t : option RBBITableBuilder)
    (rb : RBBIRuleBuilder) :=
  mkRB (fStatus rb) (fParseError rb) (fRules rb) (fStrippedRules rb)
    (fForwardTree rb) (fReverseTree rb) (fSafeFwdTree rb) (fSafeRevTree rb)
    t (fRuleStatusVals rb) (fChainRules rb) (fLBCMNoChain rb)
    (fLookAheadHardBreak rb) (fUSetNodes rb) (fScanner rb) (fSetBuilder rb).

Definition set_fSetBuilder (b : option RBBISetBuilder)
    (rb : RBBIRuleBuilder) :=
  mkRB (fStatus rb) (fParseError rb) (fRules rb) (fStrippedRules rb)
    (fForwardTree rb) (fReverseTree rb) (fSafeFwdTree rb) (fSafeRevTree rb)
    (fForwardTable rb) (fRuleStatusVals rb) (fChainRules rb) (fLBCMNoChain rb)
    (fLookAheadHardBreak rb) (fUSetNodes rb) (fScanner rb) b.

(** The places where the builder allocates. *)
Inductive AllocSite : Type :=
| new_fUSetNodes | new_fRuleStatusVals | new_fScanner | new_fSetBuilder
| new_fForwardTable | new_RuleBasedBreakIterator.

(** The runtime matcher: it keeps the compiled data. *)
Record RuleBasedBreakIterator : Type := mkRBBI { fData : option memory }.

(** ** Collaborators

    The scanner, the set builder, the table builder, the runtime matcher
    and the allocator are outside of rbbirb.cpp.  What the builder needs of
    them is taken as given: each operation that receives the builder may
    change any part of it, the status included. *)
Record Collaborators : Type := mkCollaborators {
  (** [operator new] and [uprv_malloc]: success, and the contents of a
      fresh block, which are arbitrary. *)
  new_ok : AllocSite -> bool;
  malloc_ok : Z -> bool;
  malloc_garbage : nat -> byte;
  (** [UVector::UVector(status)], [RBBIRuleScanner::RBBIRuleScanner(rb)]
      and [RBBISetBuilder::RBBISetBuilder(rb)]. *)
  UVector_ctor : UErrorCode -> UErrorCode;
  RBBIRuleScanner_ctor : RBBIRuleBuilder -> RBBIRuleBuilder;
  RBBISetBuilder_ctor : RBBIRuleBuilder -> RBBISetBuilder;
  (** [RBBIRuleScanner::parse] and [RBBIRuleScanner::stripRules]. *)
  parse : RBBIRuleBuilder -> RBBIRuleBuilder;
  stripRules : UnicodeString -> UnicodeString;
  (** [RBBISetBuilder::buildRanges] and [RBBISetBuilder::buildTrie]. *)
  buildRanges : RBBIRuleBuilder -> RBBIRuleBuilder;
  buildTrie : RBBIRuleBuilder -> RBBIRuleBuilder;
  (** [RBBITableBuilder::RBBITableBuilder(rb, &tree, status)],
      [buildForwardTable] and [buildSafeReverseTable(status)]. *)
  RBBITableBuilder_ctor : RBBIRuleBuilder -> RBBITableBuilder * UErrorCode;
  buildForwardTable : RBBIRuleBuilder -> RBBIRuleBuilder;
  buildSafeReverseTable : RBBIRuleBuilder -> RBBIRuleBuilder;
  (** The bytes [exportTable] and [exportSafeTable] write for a table of
      the given number of columns. *)
  exportTable : RBBITableBuilder -> Z -> list byte;
  exportSafeTable : RBBITableBuilder -> Z -> list byte;
  (** [RuleBasedBreakIterator::RuleBasedBreakIterator(data, status)]. *)
  RuleBasedBreakIterator_ctor : option memory -> UErrorCode -> UErrorCode
}.

(** ** The layout of [RBBIDataHeader] *)

(** Modelled from the spec: the declaration of [RBBIDataHeader]
    (rbbidata.h) is missing.  The header holds the magic constant, the four
    fields of the format version, the total length, the category count and
    an (offset, length) pair for each of the five sections; flattenData
    also clears [fReserved].  Every field is a [uint32_t], the version is
    four bytes and [fReserved] has six words. *)
Module Header.
Definition fMagic : Z := 0.
Definition fFormatVersion : Z := 4.
Definition fLength : Z := 8.
Definition fCatCount : Z := 12.
Definition fFTable : Z := 16.
Definition fFTableLen : Z := 20.
Definition fRTable : Z := 24.
Definition fRTableLen : Z := 28.
Definition fTrie : Z := 32.
Definition fTrieLen : Z := 36.
Definition fRuleSource : Z := 40.
Definition fRuleSourceLen : Z := 44.
Definition fStatusTable : Z := 48.
Definition fStatusTableLen : Z := 52.
Definition fReserved : Z := 56.
Definition sizeof_fReserved : Z := 24.
Definition sizeof : Z := 80.
End Header.

(** ** Operations of the collaborators that the flattener reads *)

(** Modelled from the spec: [RBBISetBuilder::getNumCharCategories]
    (rbbisetb.cpp is missing) is the current category count; the
    categories 0, 1 and 2 are reserved. *)
Definition getNumCharCategories (sb : RBBISetBuilder) : Z :=
  fGroupCount sb + 3.

(** Modelled from the spec: [RBBISetBuilder::getTrieSize] and
    [serializeTrie] (rbbisetb.cpp is missing) export the trie that
    [buildTrie] froze. *)
Definition getTrieSize (sb : RBBISetBuilder) : Z := Z.of_nat (length (fTrie sb)).

Definition serializeTrie (sb : RBBISetBuilder) : list byte := fTrie sb.

(** Modelled from the spec: [UnicodeString::extract(dest, destCapacity,
    status)] (unistr.cpp is missing) writes the rule source as
    null-terminated text: the code units when they fit, then a terminator
    when there is room for one; it reports the text that does not fit or
    cannot be terminated.  It does nothing on a failure status. *)
Definition U_STRING_NOT_TERMINATED_WARNING : UErrorCode := -124.

Definition U_BUFFER_OVERFLOW_ERROR : UErrorCode := 15.

Definition UnicodeString_extract (be : bool) (src : UnicodeString)
    (dest : Z) (destCapacity : Z) (status : UErrorCode) (m : memory)
  : memory * UErrorCode :=
  let len := Z.of_nat (length src) in
  if U_SUCCESS status then
    if destCapacity <? 0 then (m, U_ILLEGAL_ARGUMENT_ERROR)
    else
      let m1 := if (0 <? len) && (len <=? destCapacity)
                then write_bytes dest (u16_bytes be src) m else m in
      if len <? destCapacity then
        (write_bytes (dest + 2 * len) (u16_bytes be [0]) m1, status)
      else if len =? destCapacity then (m1, U_STRING_NOT_TERMINATED_WARNING)
      else (m1, U_BUFFER_OVERFLOW_ERROR)
  else (m, status).

Section Flatten.

Variable U_IS_BIG_ENDIAN : bool.
(** [RBBI_DATA_FORMAT_VERSION] (rbbidata.h). *)
Variable RBBI_DATA_FORMAT_VERSION : list byte.
Variable X : Collaborators.

(** [uprv_malloc(n)]: [NULL], or a block of [n] bytes of any contents. *)
Definition uprv_malloc (n : Z) : option memory :=
  if malloc_ok X n
  then Some (map (malloc_garbage X) (seq 0 (Z.to_nat n)))
  else None.

(** Modelled from the spec: [RBBITableBuilder::getTableSize] and
    [getSafeTableSize] (rbbitblb.cpp is missing) are the byte sizes of what
    [exportTable] and [exportSafeTable] write. *)
Definition getTableSize (tb : RBBITableBuilder) (sb : RBBISetBuilder) : Z :=
  Z.of_nat (length (exportTable X tb (getNumCharCategories sb))).

Definition getSafeTableSize (tb : RBBITableBuilder) (sb : RBBISetBuilder)
  : Z :=
  Z.of_nat (length (exportSafeTable X tb (getNumCharCategories sb))).

(** The five section sizes of lines 152-156, before [align8]. *)
Record SectionSizes : Type := mkSizes {
  szForward : Z; szReverse : Z; szTrie : Z; szStatus : Z; szRules : Z
}.

Definition sectionSizes (tb : RBBITableBuilder) (sb : RBBISetBuilder)
    (vals : list Z) (stripped : UnicodeString) : SectionSizes :=
  {| szForward := getTableSize tb sb;
     szReverse := getSafeTableSize tb sb;
     szTrie := getTrieSize sb;
     szStatus := Int32.to_int32 (Z.of_nat (length vals) * 4);
     szRules := Int32.to_int32 ((Z.of_nat (length stripped) + 1) * 2) |}.

(** [RBBIRuleBuilder::flattenData] (lines 135-206).  The result is the
    returned pointer (the block it designates) and the builder.  The call
    [fScanner->stripRules(...)] of line 144 is taken to go through
    [fScanner]: build has dereferenced that pointer at line 256 before it
    calls flattenData, and a run with [fScanner] at [NULL] is none of the
    runs the properties below speak of. *)
Definition flattenData (rb : RBBIRuleBuilder)
  : outcome (option memory * RBBIRuleBuilder) :=
  if U_FAILURE (fStatus rb) then Ok (None, rb)
  else
    let! _ := deref (fScanner rb) in
    let rb := set_fStrippedRules (stripRules X (fStrippedRules rb)) rb in
    let! tb := deref (fForwardTable rb) in
    let! sb := deref (fSetBuilder rb) in
    let! vals := deref (fRuleStatusVals rb) in
    let sz := sectionSizes tb sb vals (fStrippedRules rb) in
    let headerSize := align8 Header.sizeof in
    let forwardTableSize := align8 (szForward sz) in
    let reverseTableSize := align8 (szReverse sz) in
    let trieSize := align8 (szTrie sz) in
    let statusTableSize := align8 (szStatus sz) in
    let rulesSize := align8 (szRules sz) in
    let totalSize :=
      Int32.to_int32 (headerSize + forwardTableSize + reverseTableSize
                      + statusTableSize + trieSize + rulesSize) in
    match uprv_malloc totalSize with
    | None => Ok (None, set_fStatus U_MEMORY_ALLOCATION_ERROR rb)
    | Some block =>
      let data := uprv_memset block 0 totalSize in
      let st := store32 U_IS_BIG_ENDIAN in
      let data := st Header.fMagic 0xb1a0 data in
      let data :=
        write_bytes Header.fFormatVersion
          (map (fun k => nth k RBBI_DATA_FORMAT_VERSION 0) (seq 0 4))
          data in
      let data := st Header.fLength totalSize data in
      let data := st Header.fCatCount (getNumCharCategories sb) data in
      let vFTable := Int32.to_uint32 headerSize in
      let vFTableLen := Int32.to_uint32 forwardTableSize in
      let data := st Header.fFTable vFTable data in
      let data := st Header.fFTableLen vFTableLen data in
      let vRTable := Int32.to_uint32 (vFTable + vFTableLen) in
      let vRTableLen := Int32.to_uint32 reverseTableSize in
      let data := st Header.fRTable vRTable data in
      let data := st Header.fRTableLen vRTableLen data in
      let vTrie := Int32.to_uint32 (vRTable + vRTableLen) in
      let data := st Header.fTrie vTrie data in
      let data := st Header.fTrieLen (getTrieSize sb) data in
      let vStatusTable := Int32.to_uint32 (vTrie + trieSize) in
      let data := st Header.fStatusTable vStatusTable data in
      let data := st Header.fStatusTableLen statusTableSize data in
      let vRuleSource := Int32.to_uint32 (vStatusTable + statusTableSize) in
      let data := st Header.fRuleSource vRuleSource data in
      let data :=
        st Header.fRuleSourceLen
          (Z.of_nat (length (fStrippedRules rb)) * 2) data in
      let data :=
        write_bytes Header.fReserved
          (replicate (Z.to_nat Header.sizeof_fReserved) 0) data in
      let data :=
        write_bytes vFTable
          (exportTable X tb (getNumCharCategories sb)) data in
      let data :=
        write_bytes vRTable
          (exportSafeTable X tb (getNumCharCategories sb)) data in
      let data := write_bytes vTrie (serializeTrie sb) data in
      let data :=
        write_bytes vStatusTable (i32_bytes U_IS_BIG_ENDIAN vals) data in
      let '(data, status) :=
        UnicodeString_extract U_IS_BIG_ENDIAN (fStrippedRules rb)
          vRuleSource (Z.quot rulesSize 2 + 1) (fStatus rb) data in
      Ok (Some data, set_fStatus status rb)
    end.

End Flatten.

(** ** The layout the flattener computes *)

(** Rounding up to a multiple of 8, in the integers. *)
Definition up8 (x : Z) : Z := 8 * ((x + 7) / 8).

Section Layout.

Variable U_IS_BIG_ENDIAN : bool.
Variable RBBI_DATA_FORMAT_VERSION : list byte.
Variable X : Collaborators.
Variable tb : RBBITableBuilder.
Variable sb : RBBISetBuilder.
Variable vals : list Z.
Variable stripped : UnicodeString.

(** The unpadded byte length of each section. *)
Definition lenForward : Z := getTableSize X tb sb.
Definition lenReverse : Z := getSafeTableSize X tb sb.
Definition lenTrie : Z := getTrieSize sb.
Definition lenStatus : Z := 4 * Z.of_nat (length vals).
Definition lenRules : Z := 2 * Z.of_nat (length stripped).

(** The start of each section and the end of the last one. *)
Definition offForward : Z := Header.sizeof.
Definition offReverse : Z := offForward + up8 lenForward.
Definition offTrie : Z := offReverse + up8 lenReverse.
Definition offStatus : Z := offTrie + up8 lenTrie.
Definition offRules : Z := offStatus + up8 lenStatus.
Definition offEnd : Z := offRules + up8 (lenRules + 2).

(** The sizes are those of a block that [int32_t] arithmetic can
    describe. *)
Definition flatten_fits : bool := offEnd <=? Int32.max_signed.

(** The block flattenData returns when the sizes fit. *)
Definition flat_image (block : memory) : memory :=
  let st := store32 U_IS_BIG_ENDIAN in
  let data := uprv_memset block 0 offEnd in
  let data := st Header.fMagic 0xb1a0 data in
  let data :=
    write_bytes Header.fFormatVersion
      (map (fun k => nth k RBBI_DATA_FORMAT_VERSION 0) (seq 0 4)) data in
  let data := st Header.fLength offEnd data in
  let data := st Header.fCatCount (getNumCharCategories sb) data in
  let data := st Header.fFTable offForward data in
  let data := st Header.fFTableLen (up8 lenForward) data in
  let data := st Header.fRTable offReverse data in
  let data := st Header.fRTableLen (up8 lenReverse) data in
  let data := st Header.fTrie offTrie data in
  let data := st Header.fTrieLen lenTrie data in
  let data := st Header.fStatusTable offStatus data in
  let data := st Header.fStatusTableLen (up8 lenStatus) data in
  let data := st Header.fRuleSource offRules data in
  let data := st Header.fRuleSourceLen lenRules data in
  let data :=
    write_bytes Header.fReserved
      (replicate (Z.to_nat Header.sizeof_fReserved) 0) data in
  let data :=
    write_bytes offForward
      (exportTable X tb (getNumCharCategories sb)) data in
  let data :=
    write_bytes offReverse
      (exportSafeTable X tb (getNumCharCategories sb)) data in
  let data := write_bytes offTrie (serializeTrie sb) data in
  let data :=
    write_bytes offStatus (i32_bytes U_IS_BIG_ENDIAN vals) data in
  let data :=
    write_bytes offRules (u16_bytes U_IS_BIG_ENDIAN stripped) data in
  write_bytes (offRules + lenRules) (u16_bytes U_IS_BIG_ENDIAN [0]) data.

(** The padding of the sections: from the logical end of a section to
    the start of the next one, or to the end of the block. *)
Definition in_padding (i : Z) : Prop :=
  offForward + lenForward <= i < offReverse
  \/ offReverse + lenReverse <= i < offTrie
  \/ offTrie + lenTrie <= i < offStatus
  \/ offStatus + lenStatus <= i < offRules
  \/ offRules + lenRules <= i < offEnd.

End Layout.

(** ** A sample compile session

    Collaborators that behave like small versions of the real ones: the
    allocator hands out blocks filled with [0xAA], [stripRules] drops the
    spaces, a table is exported as one byte for every transition. *)
Definition sample_table : RBBITableBuilder :=
  {| fDStates :=
       [ mkSD 0 0 0 [0; 0; 0; 0; 0];
         mkSD 0 0 0 [0; 0; 0; 2; 2];
         mkSD 1 0 2 [0; 0; 0; 2; 2] ];
     fSafeTable := [[0; 0; 0]; [0; 0; 1]] |}.

Definition sample_sets : RBBISetBuilder :=
  {| fRangeList := [3; 4; 3]; fGroupCount := 2; fTrie := [9; 8; 7; 6; 5] |}.

Definition sample_collaborators
    (parse' : RBBIRuleBuilder -> RBBIRuleBuilder)
    (matcher_ctor : option memory -> UErrorCode -> UErrorCode)
  : Collaborators :=
  {| new_ok := fun _ => true;
     malloc_ok := fun n => (0 <=? n) && (n <? 65536);
     malloc_garbage := fun _ => 0xAA;
     UVector_ctor := fun s => s;
     RBBIRuleScanner_ctor := fun rb => rb;
     RBBISetBuilder_ctor := fun _ => mkSB [] 0 [];
     parse := parse';
     stripRules := filter (fun u => u <> 32);
     buildRanges := fun rb => set_fSetBuilder (Some sample_sets) rb;
     buildTrie := fun rb => rb;
     RBBITableBuilder_ctor := fun rb => (mkTB [] [], fStatus rb);
     buildForwardTable := fun rb => set_fForwardTable (Some sample_table) rb;
     buildSafeReverseTable := fun rb => rb;
     exportTable := fun tb _ =>
       flat_map (fun sd => map (fun t => t mod 256) (fDtran sd)) (fDStates tb);
     exportSafeTable := fun tb _ =>
       flat_map (map (fun t => t mod 256)) (fSafeTable tb);
     RuleBasedBreakIterator_ctor := matcher_ctor |}.

(** Nothing fails. *)
Definition sample_X : Collaborators :=
  sample_collaborators (fun rb => rb) (fun _ s => s).

(** The scanner reports a syntax error ([U_BRK_RULE_SYNTAX]) at line 1,
    offset 3. *)
Definition U_BRK_RULE_SYNTAX : UErrorCode := 66050.

Definition sample_X_syntax_error : Collaborators :=
  sample_collaborators
    (fun rb =>
       set_fParseError
         (match fParseError rb with
          | Some _ => Some (mkUParseError 1 3 (replicate 16 0) (replicate 16 0))
          | None => None
          end)
         (set_fStatus U_BRK_RULE_SYNTAX rb))
    (fun _ s => s).

(** The constructor of the matcher fails. *)
Definition sample_X_matcher_fails : Collaborators :=
  sample_collaborators (fun rb => rb) (fun _ _ => U_MEMORY_ALLOCATION_ERROR).

Definition sample_version : list byte := [6; 0; 0; 0].

(** A builder ready to be flattened: the rules are ["a b;"], the status
    list holds the default group and one group of two tags. *)
Definition sample_rb : RBBIRuleBuilder :=
  {| fStatus := U_ZERO_ERROR;
     fParseError := Some UParseError_zero;
     fRules := [97; 32; 98; 59];
     fStrippedRules := [97; 32; 98; 59];
     fForwardTree := Some (binaryNode 1 (leafNode 3) (leafNode 4));
     fReverseTree := None;
     fSafeFwdTree := None;
     fSafeRevTree := None;
     fForwardTable := Some sample_table;
     fRuleStatusVals := Some [1; 0; 2; 1; 2];
     fChainRules := false;
     fLBCMNoChain := false;
     fLookAheadHardBreak := false;
     fUSetNodes := Some [leafNode 3; leafNode 4];
     fScanner := Some RBBIRuleScanner_obj;
     fSetBuilder := Some sample_sets |}.

(** The block flattenData returns for [sample_rb]. *)
Definition sample_blob : memory :=
  match flattenData false sample_version sample_X sample_rb with
  | Ok (Some blob, _) => blob
  | _ => []
  end.

(** The same collaborators with another allocator: fresh blocks hold [g]. *)
Definition with_malloc_garbage (g : nat -> byte) (X : Collaborators)
  : Collaborators :=
  {| new_ok := new_ok X;
     malloc_ok := malloc_ok X;
     malloc_garbage := g;
     UVector_ctor := UVector_ctor X;
     RBBIRuleScanner_ctor := RBBIRuleScanner_ctor X;
     RBBISetBuilder_ctor := RBBISetBuilder_ctor X;
     parse := parse X;
     stripRules := stripRules X;
     buildRanges := buildRanges X;
     buildTrie := buildTrie X;
     RBBITableBuilder_ctor := RBBITableBuilder_ctor X;
     buildForwardTable := buildForwardTable X;
     buildSafeReverseTable := buildSafeReverseTable X;
     exportTable := exportTable X;
     exportSafeTable := exportSafeTable X;
     RuleBasedBreakIterator_ctor := RuleBasedBreakIterator_ctor X |}.

(** ** The table and category operations of the minimisation

    rbbitblb.cpp and rbbisetb.cpp are missing; the operations are modelled
    from their contracts. *)

(** Modelled from the spec: part of [findDuplCharClassFrom] (rbbitblb.cpp
    is missing).  Columns [c1] and [c2] hold the same transition in every
    state. *)
Definition columns_identical (tb : RBBITableBuilder) (c1 c2 : Z) : bool :=
  forallb
    (fun sd =>
       nth (Z.to_nat c1) (fDtran sd) 0 =? nth (Z.to_nat c2) (fDtran sd) 0)
    (fDStates tb).

(** Modelled from the spec: part of [findDuplCharClassFrom] (rbbitblb.cpp
    is missing).  The inner loop of the search: [n] candidates from
    [second] on. *)
Fixpoint find_second (n : nat) (tb : RBBITableBuilder) (first second : Z)
  : option Z :=
  match n with
  | O => None
  | S n' =>
    if columns_identical tb first second then Some second
    else find_second n' tb first (second + 1)
  end.

(** Modelled from the spec: part of [findDuplCharClassFrom] (rbbitblb.cpp
    is missing).  The outer loop of the search: [n] candidates from
    [first] on. *)
Fixpoint find_first (n : nat) (tb : RBBITableBuilder) (numCols first : Z)
  : option IntPair :=
  match n with
  | O => None
  | S n' =>
    match find_second (Z.to_nat (numCols - (first + 1))) tb first (first + 1)
    with
    | Some second => Some (mkIntPair first second)
    | None => find_first n' tb numCols (first + 1)
    end
  end.

(** Modelled from the spec: [RBBITableBuilder::findDuplCharClassFrom]
    (rbbitblb.cpp is missing) locates the next pair of distinct categories,
    at or after the given index, whose transition columns are identical
    across every state, or none.  The result is the updated pair when a
    pair is found. *)
Definition findDuplCharClassFrom (tb : RBBITableBuilder) (sb : RBBISetBuilder)
    (categories : IntPair) : option IntPair :=
  let numCols := getNumCharCategories sb in
  find_first (Z.to_nat (numCols - 1 - first categories)) tb numCols
    (first categories).

(** Modelled from the spec: [RBBISetBuilder::mergeCategories]
    (rbbisetb.cpp is missing) folds the higher category, [second], into
    the lower one, [first]; the categories above [second] move down by
    one and the category count decreases. *)
Definition mergeCategories (categories : IntPair) (sb : RBBISetBuilder)
  : RBBISetBuilder :=
  {| fRangeList :=
       map (fun num =>
              if num =? second categories then first categories
              else if second categories <? num then num - 1
              else num)
           (fRangeList sb);
     fGroupCount := fGroupCount sb - 1;
     fTrie := fTrie sb |}.

(** Modelled from the spec: [RBBITableBuilder::removeColumn]
    (rbbitblb.cpp is missing) deletes a column of the table. *)
Definition removeColumn (column : Z) (tb : RBBITableBuilder)
  : RBBITableBuilder :=
  {| fDStates :=
       map (fun sd =>
              mkSD (fAccepting sd) (fLookAhead sd) (fTagsIdx sd)
                (delete (Z.to_nat column) (fDtran sd)))
           (fDStates tb);
     fSafeTable := fSafeTable tb |}.

(** Modelled from the spec: part of [removeDuplicateStates] (rbbitblb.cpp
    is missing).  Two rows are structurally identical. *)
Definition states_identical (a b : RBBIStateDescriptor) : bool :=
  (fAccepting a =? fAccepting b) && (fLookAhead a =? fLookAhead b)
  && (fTagsIdx a =? fTagsIdx b)
  && bool_decide (fDtran a = fDtran b).

(** Modelled from the spec: part of [removeDuplicateStates] (rbbitblb.cpp
    is missing).  The first row, numbered from [j0], that is identical to
    [sd]. *)
Fixpoint find_dupl_of (sd : RBBIStateDescriptor)
    (rest : list RBBIStateDescriptor) (j0 : nat) : option nat :=
  match rest with
  | [] => None
  | sd' :: rest' =>
    if states_identical sd sd' then Some j0
    else find_dupl_of sd rest' (S j0)
  end.

(** Modelled from the spec: part of [removeDuplicateStates] (rbbitblb.cpp
    is missing).  The first pair of identical rows, the rows numbered from
    [i0]. *)
Fixpoint findDuplicateState (states : list RBBIStateDescriptor) (i0 : nat)
  : option (nat * nat) :=
  match states with
  | [] => None
  | sd :: rest =>
    match find_dupl_of sd rest (S i0) with
    | Some j => Some (i0, j)
    | None => findDuplicateState rest (S i0)
    end
  end.

(** Modelled from the spec: part of [removeDuplicateStates] (rbbitblb.cpp
    is missing).  Row [dupl] is removed; the transitions to it go to row
    [keep] and the transitions to the rows after it move down by one. *)
Definition removeState (keep dupl : nat) (states : list RBBIStateDescriptor)
  : list RBBIStateDescriptor :=
  map (fun sd =>
         mkSD (fAccepting sd) (fLookAhead sd) (fTagsIdx sd)
           (map (fun t =>
                   if t =? Z.of_nat dupl then Z.of_nat keep
                   else if Z.of_nat dupl <? t then t - 1
                   else t)
                (fDtran sd)))
      (delete dupl states).

(** Modelled from the spec: part of [removeDuplicateStates] (rbbitblb.cpp
    is missing).  The merge loop: at most [n] merges. *)
Fixpoint remove_states_loop (n : nat) (states : list RBBIStateDescriptor)
    (numStatesRemoved : Z) : list RBBIStateDescriptor * Z :=
  match n with
  | O => (states, numStatesRemoved)
  | S n' =>
    match findDuplicateState states 0 with
    | Some (keep, dupl) =>
      remove_states_loop n' (removeState keep dupl states)
        (numStatesRemoved + 1)
    | None => (states, numStatesRemoved)
    end
  end.

(** Modelled from the spec: [RBBITableBuilder::removeDuplicateStates]
    (rbbitblb.cpp is missing) merges identical rows until none remain and
    returns the number of rows merged.  A merge removes a row, so the
    number of rows bounds the number of merges. *)
Definition removeDuplicateStates (tb : RBBITableBuilder)
  : RBBITableBuilder * Z :=
  let '(states, n) :=
    remove_states_loop (length (fDStates tb)) (fDStates tb) 0 in
  ({| fDStates := states; fSafeTable := fSafeTable tb |}, n).

(** ** [RBBIRuleBuilder::optimizeTables] (lines 304-323)

    The loops run on fuel; what the calls do is recorded, in order. *)
Inductive MinEvent : Type :=
| EvFindDupl (start : IntPair) (found : option IntPair)
| EvMergeCategories (categories : IntPair)
| EvRemoveColumn (column : Z)
| EvRemoveDuplicateStates (removed : Z).

(** [while (fForwardTable->findDuplCharClassFrom(&duplPair)) { ... }] *)
Fixpoint column_loop (fuel : nat) (duplPair : IntPair)
    (tb : RBBITableBuilder) (sb : RBBISetBuilder) (didSomething : bool)
  : option (RBBITableBuilder * RBBISetBuilder * bool * list MinEvent) :=
  match fuel with
  | O => None
  | S fuel' =>
    match findDuplCharClassFrom tb sb duplPair with
    | None => Some (tb, sb, didSomething, [EvFindDupl duplPair None])
    | Some found =>
      let sb' := mergeCategories found sb in
      let tb' := removeColumn (second found) tb in
      match column_loop fuel' found tb' sb' true with
      | None => None
      | Some (tb'', sb'', did, evs) =>
        Some (tb'', sb'', did,
              EvFindDupl duplPair (Some found) :: EvMergeCategories found
              :: EvRemoveColumn (second found) :: evs)
      end
    end
  end.

(** [while (fForwardTable->removeDuplicateStates() > 0) { ... }] *)
Fixpoint row_loop (fuel : nat) (tb : RBBITableBuilder) (didSomething : bool)
  : option (RBBITableBuilder * bool * list MinEvent) :=
  match fuel with
  | O => None
  | S fuel' =>
    let '(tb', removed) := removeDuplicateStates tb in
    if 0 <? removed then
      match row_loop fuel' tb' true with
      | None => None
      | Some (tb'', did, evs) =>
        Some (tb'', did, EvRemoveDuplicateStates removed :: evs)
      end
    else Some (tb', didSomething, [EvRemoveDuplicateStates removed])
  end.

(** [do { didSomething = false; ... } while (didSomething);] *)
Fixpoint optimize_loop (fuel : nat) (tb : RBBITableBuilder)
    (sb : RBBISetBuilder)
  : option (RBBITableBuilder * RBBISetBuilder * list MinEvent) :=
  match fuel with
  | O => None
  | S fuel' =>
    match column_loop fuel' (mkIntPair 3 0) tb sb false with
    | None => None
    | Some (tb1, sb1, did1, evs1) =>
      match row_loop fuel' tb1 did1 with
      | None => None
      | Some (tb2, did2, evs2) =>
        if did2 then
          match optimize_loop fuel' tb2 sb1 with
          | None => None
          | Some (tb3, sb3, evs3) => Some (tb3, sb3, evs1 ++ evs2 ++ evs3)
          end
        else Some (tb2, sb1, evs1 ++ evs2)
      end
    end
  end.

(** Fuel that is enough for every loop of optimizeTables: the category
    count and the state count bound the number of merges. *)
Definition optimize_fuel (tb : RBBITableBuilder) (sb : RBBISetBuilder) : nat :=
  S (S (Z.to_nat (getNumCharCategories sb) + length (fDStates tb))).

(** optimizeTables on the table and the category builder it mutates. *)
Definition optimizeTables_core (tb : RBBITableBuilder) (sb : RBBISetBuilder)
  : option (RBBITableBuilder * RBBISetBuilder * list MinEvent) :=
  optimize_loop (optimize_fuel tb sb) tb sb.

(** ** The shape of a run of optimizeTables *)

(** The column phase of a pass: searches from [s] on, each pair found is
    merged, higher index into lower, and its column removed. *)
Inductive col_phase : IntPair -> list MinEvent -> Prop :=
| col_stop s : col_phase s [EvFindDupl s None]
| col_merge s q rest :
    first s <= first q < second q ->
    col_phase q rest ->
    col_phase s (EvFindDupl s (Some q) :: EvMergeCategories q
                 :: EvRemoveColumn (second q) :: rest).

(** The row phase of a pass: merge passes until one merges nothing. *)
Inductive row_phase : list MinEvent -> Prop :=
| row_stop : row_phase [EvRemoveDuplicateStates 0]
| row_more n rest :
    0 < n -> row_phase rest ->
    row_phase (EvRemoveDuplicateStates n :: rest).

(** A run: passes, each a column phase that starts at category 3 and then
    a row phase. *)
Inductive pass_trace : list MinEvent -> Prop :=
| pass_last c r :
    col_phase (mkIntPair 3 0) c -> row_phase r -> pass_trace (c ++ r)
| pass_more c r rest :
    col_phase (mkIntPair 3 0) c -> row_phase r -> pass_trace rest ->
    pass_trace (c ++ r ++ rest).

(** The number of category merges and of rows merged in a run. *)
Fixpoint merges (evs : list MinEvent) : Z :=
  match evs with
  | [] => 0
  | EvMergeCategories _ :: evs' => 1 + merges evs'
  | _ :: evs' => merges evs'
  end.

Fixpoint rows_removed (evs : list MinEvent) : Z :=
  match evs with
  | [] => 0
  | EvRemoveDuplicateStates n :: evs' => n + rows_removed evs'
  | _ :: evs' => rows_removed evs'
  end.

(** What a run spares: every search starts at category 3 or later, every
    merge folds a category above 3 into a category at or above 3, and
    every column removed is above 3. *)
Definition spares_reserved (e : MinEvent) : Prop :=
  match e with
  | EvFindDupl start _ => 3 <= first start
  | EvMergeCategories q => 3 <= first q /\ first q < second q
  | EvRemoveColumn c => 3 < c
  | EvRemoveDuplicateStates _ => True
  end.

(** ** Construction and teardown of the builder *)

Definition set_fUSetNodes (v : option (list RBBINode)) (rb : RBBIRuleBuilder) :=
  mkRB (fStatus rb) (fParseError rb) (fRules rb) (fStrippedRules rb)
    (fForwardTree rb) (fReverseTree rb) (fSafeFwdTree rb) (fSafeRevTree rb)
    (fForwardTable rb) (fRuleStatusVals rb) (fChainRules rb) (fLBCMNoChain rb)
    (fLookAheadHardBreak rb) v (fScanner rb) (fSetBuilder rb).

Definition set_fRuleStatusVals (v : option (list Z)) (rb : RBBIRuleBuilder) :=
  mkRB (fStatus rb) (fParseError rb) (fRules rb) (fStrippedRules rb)
    (fForwardTree rb) (fReverseTree rb) (fSafeFwdTree rb) (fSafeRevTree rb)
    (fForwardTable rb) v (fChainRules rb) (fLBCMNoChain rb)
    (fLookAheadHardBreak rb) (fUSetNodes rb) (fScanner rb) (fSetBuilder rb).

Definition set_fScanner (v : option RBBIRuleScanner) (rb : RBBIRuleBuilder) :=
  mkRB (fStatus rb) (fParseError rb) (fRules rb) (fStrippedRules rb)
    (fForwardTree rb) (fReverseTree rb) (fSafeFwdTree rb) (fSafeRevTree rb)
    (fForwardTable rb) (fRuleStatusVals rb) (fChainRules rb) (fLBCMNoChain rb)
    (fLookAheadHardBreak rb) (fUSetNodes rb) v (fSetBuilder rb).

(** The constructor up to the test of the status (lines 50-75): the
    member initialisers, the [NULL] pointers and the clearing of the
    caller's parse-error descriptor. *)
Definition ctor_init (rules : UnicodeString) (parseErr : option UParseError)
    (status : UErrorCode) : RBBIRuleBuilder :=
  let rb :=
    {| fStatus := status;
       fParseError := parseErr;
       fRules := rules;
       fStrippedRules := rules;
       fForwardTree := None;
       fReverseTree := None;
       fSafeFwdTree := None;
       fSafeRevTree := None;
       fForwardTable := None;
       fRuleStatusVals := None;
       fChainRules := false;
       fLBCMNoChain := false;
       fLookAheadHardBreak := false;
       fUSetNodes := None;
       fScanner := None;
       fSetBuilder := None |} in
  match parseErr with
  | Some _ => set_fParseError (Some UParseError_zero) rb
  | None => rb
  end.

(** The rest of the constructor (lines 77-90), with the list of the [new]
    expressions it evaluates. *)
Definition ctor_allocate (X : Collaborators) (rb : RBBIRuleBuilder)
  : RBBIRuleBuilder * list AllocSite :=
  if U_FAILURE (fStatus rb) then (rb, [])
  else
    let rb :=
      if new_ok X new_fUSetNodes
      then set_fUSetNodes (Some [])
             (set_fStatus (UVector_ctor X (fStatus rb)) rb)
      else rb in
    let rb :=
      if new_ok X new_fRuleStatusVals
      then set_fRuleStatusVals (Some [])
             (set_fStatus (UVector_ctor X (fStatus rb)) rb)
      else rb in
    let rb :=
      if new_ok X new_fScanner
      then set_fScanner (Some RBBIRuleScanner_obj) (RBBIRuleScanner_ctor X rb)
      else rb in
    let rb :=
      if new_ok X new_fSetBuilder
      then set_fSetBuilder (Some (RBBISetBuilder_ctor X rb)) rb
      else rb in
    let allocs :=
      [new_fUSetNodes; new_fRuleStatusVals; new_fScanner; new_fSetBuilder] in
    if U_FAILURE (fStatus rb) then (rb, allocs)
    else if negb (bool_decide (is_Some (fSetBuilder rb)))
            || negb (bool_decide (is_Some (fScanner rb)))
            || negb (bool_decide (is_Some (fUSetNodes rb)))
            || negb (bool_decide (is_Some (fRuleStatusVals rb)))
    then (set_fStatus U_MEMORY_ALLOCATION_ERROR rb, allocs)
    else (rb, allocs).

(** [RBBIRuleBuilder::RBBIRuleBuilder] (lines 47-91). *)
Definition RBBIRuleBuilder_ctor (X : Collaborators) (rules : UnicodeString)
    (parseErr : option UParseError) (status : UErrorCode)
  : RBBIRuleBuilder * list AllocSite :=
  ctor_allocate X (ctor_init rules parseErr status).

(** What a teardown frees. *)
Inductive Freed : Type :=
| FreedNode (n : RBBINode)
| FreedUSetNodes | FreedSetBuilder | FreedForwardTable
| FreedForwardTree | FreedReverseTree | FreedSafeFwdTree | FreedSafeRevTree
| FreedScanner | FreedRuleStatusVals.

(** [delete p]: nothing when [p] is [NULL]. *)
Definition cxx_delete {A} (p : option A) (what : Freed) : list Freed :=
  match p with
  | Some _ => [what]
  | None => []
  end.

(** [RBBIRuleBuilder::~RBBIRuleBuilder] (lines 100-120).  The loop calls
    [fUSetNodes->elementAt(i)] from [i = 0] on, which dereferences
    [fUSetNodes]; [elementAt] is [NULL] past the last element, so the loop
    deletes every node of the vector. *)
Definition RBBIRuleBuilder_dtor (rb : RBBIRuleBuilder) : outcome (list Freed) :=
  let! nodes := deref (fUSetNodes rb) in
  Ok (map FreedNode nodes
      ++ cxx_delete (fUSetNodes rb) FreedUSetNodes
      ++ cxx_delete (fSetBuilder rb) FreedSetBuilder
      ++ cxx_delete (fForwardTable rb) FreedForwardTable
      ++ cxx_delete (fForwardTree rb) FreedForwardTree
      ++ cxx_delete (fReverseTree rb) FreedReverseTree
      ++ cxx_delete (fSafeFwdTree rb) FreedSafeFwdTree
      ++ cxx_delete (fSafeRevTree rb) FreedSafeRevTree
      ++ cxx_delete (fScanner rb) FreedScanner
      ++ cxx_delete (fRuleStatusVals rb) FreedRuleStatusVals).

(** ** The pipeline *)

(** optimizeTables on the builder: it works on [*fForwardTable] and
    [*fSetBuilder]. *)
Definition optimizeTables (rb : RBBIRuleBuilder) : outcome RBBIRuleBuilder :=
  let! tb := deref (fForwardTable rb) in
  let! sb := deref (fSetBuilder rb) in
  match optimizeTables_core tb sb with
  | Some (tb', sb', _) =>
    Ok (set_fSetBuilder (Some sb') (set_fForwardTable (Some tb') rb))
  | None => Diverges
  end.

Section Pipeline.

Variable U_IS_BIG_ENDIAN : bool.
Variable RBBI_DATA_FORMAT_VERSION : list byte.
Variable X : Collaborators.

(** [RBBIRuleBuilder::build] (lines 251-302); [status] is [*fStatus]. *)
Definition build (rb : RBBIRuleBuilder)
  : outcome (option memory * RBBIRuleBuilder) :=
  if U_FAILURE (fStatus rb) then Ok (None, rb)
  else
    let! _ := deref (fScanner rb) in
    let rb := parse X rb in
    if U_FAILURE (fStatus rb) then Ok (None, rb)
    else
      let! _ := deref (fSetBuilder rb) in
      let rb := buildRanges X rb in
      if negb (new_ok X new_fForwardTable)
      then Ok (None,
               set_fStatus U_MEMORY_ALLOCATION_ERROR
                 (set_fForwardTable None rb))
      else
        let '(tb, status) := RBBITableBuilder_ctor X rb in
        let rb := set_fForwardTable (Some tb) (set_fStatus status rb) in
        let rb := buildForwardTable X rb in
        let! rb := optimizeTables rb in
        let! _ := deref (fForwardTable rb) in
        let rb := buildSafeReverseTable X rb in
        let! _ := deref (fSetBuilder rb) in
        let rb := buildTrie X rb in
        let! flat :=
          flattenData U_IS_BIG_ENDIAN RBBI_DATA_FORMAT_VERSION X rb in
        let '(data, rb) := flat in
        if U_FAILURE (fStatus rb) then Ok (None, rb)
        else Ok (data, rb).

(** What the body of the factory reaches at its [return]: the value to
    return, the caller's status and parse-error descriptor, the matcher
    that was constructed and the one that was deleted, and the teardown of
    the local builder, which runs before the call returns. *)
Record FactoryResult : Type := mkFactoryResult {
  retval : option RuleBasedBreakIterator;
  status_out : UErrorCode;
  parseError_out : option UParseError;
  constructed : option RuleBasedBreakIterator;
  deleted : option RuleBasedBreakIterator;
  teardown : outcome (list Freed)
}.

(** The body of [RBBIRuleBuilder::createRuleBasedBreakIterator] (lines
    224-248), up to the destruction of the local [builder]. *)
Definition createRuleBasedBreakIterator_body (rules : UnicodeString)
    (parseError : option UParseError) (status : UErrorCode)
  : outcome FactoryResult :=
  let '(builder, _) := RBBIRuleBuilder_ctor X rules parseError status in
  if U_FAILURE (fStatus builder)
  then Ok (mkFactoryResult None (fStatus builder) (fParseError builder)
             None None (RBBIRuleBuilder_dtor builder))
  else
    let! built := build builder in
    let '(data, builder) := built in
    if U_FAILURE (fStatus builder)
    then Ok (mkFactoryResult None (fStatus builder) (fParseError builder)
               None None (RBBIRuleBuilder_dtor builder))
    else if new_ok X new_RuleBasedBreakIterator then
      let This := mkRBBI data in
      let status := RuleBasedBreakIterator_ctor X data (fStatus builder) in
      if U_FAILURE status
      then Ok (mkFactoryResult None status (fParseError builder)
                 (Some This) (Some This) (RBBIRuleBuilder_dtor builder))
      else Ok (mkFactoryResult (Some This) status (fParseError builder)
                 (Some This) None (RBBIRuleBuilder_dtor builder))
    else Ok (mkFactoryResult None U_MEMORY_ALLOCATION_ERROR
               (fParseError builder) None None
               (RBBIRuleBuilder_dtor builder)).

(** [RBBIRuleBuilder::createRuleBasedBreakIterator] (lines 215-249): the
    destructor of the local builder runs at every [return], before the
    caller receives the value; a call whose teardown dereferences [NULL]
    returns nothing. *)
Definition createRuleBasedBreakIterator (rules : UnicodeString)
    (parseError : option UParseError) (status : UErrorCode)
  : outcome FactoryResult :=
  let! res := createRuleBasedBreakIterator_body rules parseError status in
  let! _ := teardown res in
  Ok res.

End Pipeline.

(** The result of optimizeTables on the sample table. *)
Definition sample_optimized
  : RBBITableBuilder * RBBISetBuilder * list MinEvent :=
  match optimizeTables_core sample_table sample_sets with
  | Some r => r
  | None => (sample_table, sample_sets, [])
  end.

(** The same collaborators with another [uprv_malloc]. *)
Definition with_malloc_ok (f : Z -> bool) (X : Collaborators)
  : Collaborators :=
  {| new_ok := new_ok X;
     malloc_ok := f;
     malloc_garbage := malloc_garbage X;
     UVector_ctor := UVector_ctor X;
     RBBIRuleScanner_ctor := RBBIRuleScanner_ctor X;
     RBBISetBuilder_ctor := RBBISetBuilder_ctor X;
     parse := parse X;
     stripRules := stripRules X;
     buildRanges := buildRanges X;
     buildTrie := buildTrie X;
     RBBITableBuilder_ctor := RBBITableBuilder_ctor X;
     buildForwardTable := buildForwardTable X;
     buildSafeReverseTable := buildSafeReverseTable X;
     exportTable := exportTable X;
     exportSafeTable := exportSafeTable X;
     RuleBasedBreakIterator_ctor := RuleBasedBreakIterator_ctor X |}.

(** The same collaborators with another [operator new]. *)
Definition with_new_ok (f : AllocSite -> bool) (X : Collaborators)
  : Collaborators :=
  {| new_ok := f;
     malloc_ok := malloc_ok X;
     malloc_garbage := malloc_garbage X;
     UVector_ctor := UVector_ctor X;
     RBBIRuleScanner_ctor := RBBIRuleScanner_ctor X;
     RBBISetBuilder_ctor := RBBISetBuilder_ctor X;
     parse := parse X;
     stripRules := stripRules X;
     buildRanges := buildRanges X;
     buildTrie := buildTrie X;
     RBBITableBuilder_ctor := RBBITableBuilder_ctor X;
     buildForwardTable := buildForwardTable X;
     buildSafeReverseTable := buildSafeReverseTable X;
     exportTable := exportTable X;
     exportSafeTable := exportSafeTable X;
     RuleBasedBreakIterator_ctor := RuleBasedBreakIterator_ctor X |}.

(** The sample session when [new UVector] returns [NULL] for
    [fUSetNodes]. *)
Definition sample_X_no_vector : Collaborators :=
  with_new_ok
    (fun site => match site with new_fUSetNodes => false | _ => true end)
    sample_X.

(** The sample session when [uprv_malloc] has no memory left. *)
Definition sample_X_no_memory : Collaborators :=
  with_malloc_ok (fun _ => false) sample_X.

(** * Properties *)

(** ** Machine integers and [align8] *)

Lemma to_uint32_small z :
  0 <= z < Int32.modulus -> Int32.to_uint32 z = z.
Proof. intros H. unfold Int32.to_uint32. apply Z.mod_small. exact H. Qed.

Lemma to_int32_small z :
  - 2147483648 <= z <= Int32.max_signed -> Int32.to_int32 z = z.
Proof.
  intros H. unfold Int32.to_int32, Int32.max_signed, Int32.modulus in *.
  rewrite Z.mod_small; lia.
Qed.

(** Clearing the three low bits of a 32-bit value. *)
Lemma land_fffffff8 x :
  0 <= x < Int32.modulus -> Z.land x 0xfffffff8 = 8 * (x / 8).
Proof.
  intros [Hlo Hhi].
  replace (8 * (x / 8)) with (Z.shiftl (Z.shiftr x 3) 3).
  2:{ rewrite Z.shiftl_mul_pow2, Z.shiftr_div_pow2 by lia.
      change (2 ^ 3) with 8. lia. }
  apply Z.bits_inj'. intros n Hn.
  rewrite Z.land_spec.
  destruct (Z.ltb_spec n 3) as [Hlt | Hge].
  - rewrite Z.shiftl_spec_low by lia.
    replace (Z.testbit 0xfffffff8 n) with false.
    + apply andb_false_r.
    + assert (n = 0 \/ n = 1 \/ n = 2) as [-> | [-> | ->]] by lia;
        reflexivity.
  - rewrite Z.shiftl_spec by lia.
    rewrite Z.shiftr_spec by lia.
    replace (n - 3 + 3) with n by lia.
    destruct (Z.ltb_spec n 32) as [Hlt32 | Hge32].
    + replace (Z.testbit 0xfffffff8 n) with true.
      * apply andb_true_r.
      * change 0xfffffff8 with (Z.shiftl (Z.ones 29) 3).
        rewrite Z.shiftl_spec by lia.
        rewrite Z.ones_spec_low by lia. reflexivity.
    + replace (Z.testbit x n) with false.
      * reflexivity.
      * symmetry. destruct (Z.eq_dec x 0) as [-> | Hx].
        -- apply Z.bits_0.
        -- apply Z.bits_above_log2; [lia |].
           assert (Z.log2 x < 32); [| lia].
           apply Z.log2_lt_pow2; [lia |]. exact Hhi.
Qed.

Lemma align8_spec i :
  0 <= i <= Int32.max_signed - 7 -> align8 i = 8 * ((i + 7) / 8).
Proof.
  intros H. unfold align8, Int32.max_signed in *.
  rewrite to_uint32_small by (unfold Int32.modulus; lia).
  rewrite land_fffffff8 by (unfold Int32.modulus; lia).
  apply to_int32_small. unfold Int32.max_signed.
  Z.div_mod_to_equations. lia.
Qed.

Lemma align8_bounds i :
  0 <= i <= Int32.max_signed - 7 -> i <= align8 i < i + 8.
Proof.
  intros H. rewrite align8_spec by exact H.
  Z.div_mod_to_equations. lia.
Qed.

Lemma align8_mod8 i :
  0 <= i <= Int32.max_signed - 7 -> align8 i mod 8 = 0.
Proof.
  intros H. rewrite align8_spec by exact H.
  rewrite Z.mul_comm. apply Z.mod_mul. lia.
Qed.

Lemma align8_aligned i :
  0 <= i <= Int32.max_signed - 7 -> i mod 8 = 0 -> align8 i = i.
Proof.
  intros H Hm. rewrite align8_spec by exact H.
  Z.div_mod_to_equations. lia.
Qed.

Lemma U_SUCCESS_FAILURE x : U_SUCCESS x = negb (U_FAILURE x).
Proof. unfold U_SUCCESS, U_FAILURE. lia. Qed.

(** ** Stores and loads *)

Lemma length_write_bytes off bs (m : memory) :
  length (write_bytes off bs m) = length m.
Proof. unfold write_bytes. apply length_inserts. Qed.

Lemma write_bytes_lookup_out off bs (m : memory) (j : nat) :
  (j < Z.to_nat off \/ Z.to_nat off + length bs <= j)%nat ->
  write_bytes off bs m !! j = m !! j.
Proof.
  unfold write_bytes. intros [H | H].
  - apply list_lookup_inserts_lt. exact H.
  - apply list_lookup_inserts_ge. exact H.
Qed.

Lemma write_bytes_lookup_in off bs (m : memory) (j : nat) :
  (Z.to_nat off <= j < Z.to_nat off + length bs)%nat ->
  (j < length m)%nat ->
  write_bytes off bs m !! j = bs !! (j - Z.to_nat off)%nat.
Proof. unfold write_bytes. intros H1 H2. apply list_lookup_inserts; lia. Qed.

Lemma length_le_bytes n v : length (le_bytes n v) = n.
Proof. unfold le_bytes. rewrite length_map, length_seq. reflexivity. Qed.

Lemma length_int_bytes be n v : length (int_bytes be n v) = n.
Proof.
  unfold int_bytes. destruct be.
  - rewrite length_rev. apply length_le_bytes.
  - apply length_le_bytes.
Qed.

Lemma int_value_int_bytes_4 be v :
  0 <= v < Int32.modulus -> int_value be (int_bytes be 4 v) = v.
Proof.
  unfold Int32.modulus. intros H.
  assert (le_value (le_bytes 4 v) = v) as Hle.
  { unfold le_bytes. cbn [seq map le_value].
    change (2 ^ (8 * Z.of_nat 0)) with 1.
    change (2 ^ (8 * Z.of_nat 1)) with 256.
    change (2 ^ (8 * Z.of_nat 2)) with 65536.
    change (2 ^ (8 * Z.of_nat 3)) with 16777216.
    Z.div_mod_to_equations. lia. }
  unfold int_value, int_bytes. destruct be.
  - rewrite rev_involutive. exact Hle.
  - exact Hle.
Qed.

Lemma load32_write_bytes_out be off bs (m : memory) o :
  (Z.to_nat o + 4 <= Z.to_nat off \/ Z.to_nat off + length bs <= Z.to_nat o)%nat ->
  load32 be (write_bytes off bs m) o = load32 be m o.
Proof.
  intros H. unfold load32. f_equal. apply list_eq. intros i.
  destruct (decide (i < 4)%nat) as [Hi | Hi].
  - rewrite !lookup_take_lt by exact Hi. rewrite !lookup_drop.
    apply write_bytes_lookup_out. lia.
  - rewrite !lookup_take_ge by lia. reflexivity.
Qed.

Lemma load32_store32 be o v (m : memory) :
  (Z.to_nat o + 4 <= length m)%nat ->
  load32 be (store32 be o v m) o = Int32.to_uint32 v.
Proof.
  intros H. unfold load32, store32.
  set (bs := int_bytes be 4 (Int32.to_uint32 v)).
  assert (length bs = 4%nat) as Hlen by apply length_int_bytes.
  replace (take 4 (drop (Z.to_nat o) (write_bytes o bs m))) with bs.
  - apply int_value_int_bytes_4. unfold Int32.to_uint32, Int32.modulus.
    apply Z.mod_pos_bound. lia.
  - apply list_eq. intros i.
    destruct (decide (i < 4)%nat) as [Hi | Hi].
    + rewrite lookup_take_lt by exact Hi. rewrite lookup_drop.
      rewrite write_bytes_lookup_in by lia. f_equal. lia.
    + rewrite lookup_take_ge by lia. apply lookup_ge_None_2. lia.
Qed.

Lemma length_u16_bytes be us : length (u16_bytes be us) = (2 * length us)%nat.
Proof.
  unfold u16_bytes. induction us as [| u us IH]; [reflexivity |].
  cbn [flat_map]. rewrite length_app, length_int_bytes, IH. cbn [length]. lia.
Qed.

Lemma length_i32_bytes be vs : length (i32_bytes be vs) = (4 * length vs)%nat.
Proof.
  unfold i32_bytes. induction vs as [| v vs IH]; [reflexivity |].
  cbn [flat_map]. rewrite length_app, length_int_bytes, IH. cbn [length]. lia.
Qed.

Lemma uprv_memset_all (m : memory) v n :
  Z.to_nat n = length m -> uprv_memset m v n = replicate (length m) v.
Proof.
  intros H. unfold uprv_memset. apply list_eq. intros i.
  destruct (decide (i < length m)%nat) as [Hi | Hi].
  - rewrite list_lookup_inserts by (rewrite ?length_replicate; lia).
    rewrite Nat.sub_0_r, H. reflexivity.
  - rewrite list_lookup_inserts_ge by (rewrite length_replicate; lia).
    rewrite (lookup_ge_None_2 m) by lia.
    symmetry. apply lookup_replicate_None. lia.
Qed.

Lemma up8_bounds x : x <= up8 x < x + 8.
Proof. unfold up8. Z.div_mod_to_equations. lia. Qed.

Lemma up8_mod8 x : up8 x mod 8 = 0.
Proof. unfold up8. rewrite Z.mul_comm. apply Z.mod_mul. lia. Qed.

Lemma align8_up8 x : 0 <= x <= Int32.max_signed - 7 -> align8 x = up8 x.
Proof. apply align8_spec. Qed.

Lemma UnicodeString_extract_fits be src dest cap st (m : memory) :
  U_SUCCESS st = true -> Z.of_nat (length src) < cap ->
  UnicodeString_extract be src dest cap st m =
  (write_bytes (dest + 2 * Z.of_nat (length src)) (u16_bytes be [0])
     (write_bytes dest (u16_bytes be src) m), st).
Proof.
  intros Hst Hcap. unfold UnicodeString_extract. rewrite Hst.
  destruct (Z.ltb_spec cap 0) as [? | _]; [lia |].
  destruct (Z.ltb_spec (Z.of_nat (length src)) cap) as [_ | ?]; [| lia].
  destruct (Z.ltb_spec 0 (Z.of_nat (length src))) as [Hpos | Hzero].
  - destruct (Z.leb_spec (Z.of_nat (length src)) cap) as [_ | ?]; [| lia].
    reflexivity.
  - destruct src as [| u src]; [reflexivity | cbn [length] in Hzero; lia].
Qed.

Lemma lengths_nonneg X tb sb vals stripped :
  0 <= lenForward X tb sb /\ 0 <= lenReverse X tb sb /\ 0 <= lenTrie sb
  /\ 0 <= lenStatus vals /\ 0 <= lenRules stripped.
Proof.
  unfold lenForward, lenReverse, lenTrie, lenStatus, lenRules,
    getTableSize, getSafeTableSize, getTrieSize. lia.
Qed.

Lemma offsets_ordered X tb sb vals stripped :
  offForward = 80
  /\ offForward + lenForward X tb sb <= offReverse X tb sb
  /\ offReverse X tb sb + lenReverse X tb sb <= offTrie X tb sb
  /\ offTrie X tb sb + lenTrie sb <= offStatus X tb sb
  /\ offStatus X tb sb + lenStatus vals <= offRules X tb sb vals
  /\ offRules X tb sb vals + lenRules stripped + 2
     <= offEnd X tb sb vals stripped.
Proof.
  unfold offEnd, offRules, offStatus, offTrie, offReverse, offForward,
    Header.sizeof.
  pose proof (up8_bounds (lenForward X tb sb)).
  pose proof (up8_bounds (lenReverse X tb sb)).
  pose proof (up8_bounds (lenTrie sb)).
  pose proof (up8_bounds (lenStatus vals)).
  pose proof (up8_bounds (lenRules stripped + 2)). lia.
Qed.

(** When the status is a success, no pointer is [NULL] and the sizes fit,
    flattenData returns [flat_image], or [NULL] when the allocation
    fails. *)
Lemma flattenData_fits be ver X rb sc tb sb vals :
  U_FAILURE (fStatus rb) = false ->
  fScanner rb = Some sc ->
  fForwardTable rb = Some tb ->
  fSetBuilder rb = Some sb ->
  fRuleStatusVals rb = Some vals ->
  flatten_fits X tb sb vals (stripRules X (fStrippedRules rb)) = true ->
  flattenData be ver X rb =
  if malloc_ok X (offEnd X tb sb vals (stripRules X (fStrippedRules rb)))
  then
    Ok (Some (flat_image be ver X tb sb vals (stripRules X (fStrippedRules rb))
                (map (malloc_garbage X)
                   (seq 0 (Z.to_nat
                      (offEnd X tb sb vals
                         (stripRules X (fStrippedRules rb))))))),
        set_fStatus (fStatus rb)
          (set_fStrippedRules (stripRules X (fStrippedRules rb)) rb))
  else
    Ok (None,
        set_fStatus U_MEMORY_ALLOCATION_ERROR
          (set_fStrippedRules (stripRules X (fStrippedRules rb)) rb)).
Proof.
  intros Hst Hsc Htb Hsb Hvals Hfits.
  set (stripped := stripRules X (fStrippedRules rb)) in *.
  pose proof (lengths_nonneg X tb sb vals stripped) as (HF & HR & HT & HS & HU).
  pose proof (offsets_ordered X tb sb vals stripped)
    as (H80 & HoR & HoT & HoS & HoU & HoE).
  unfold flatten_fits in Hfits. apply Z.leb_le in Hfits.
  unfold Int32.max_signed in Hfits.
  assert (Int32.to_int32 (Z.of_nat (length vals) * 4)
          = lenStatus vals) as EszS.
  { unfold lenStatus in *. rewrite to_int32_small;
      unfold Int32.max_signed; lia. }
  assert (Int32.to_int32 ((Z.of_nat (length stripped) + 1) * 2)
          = lenRules stripped + 2) as EszU.
  { unfold lenRules in *. rewrite to_int32_small;
      unfold Int32.max_signed; lia. }
  assert (align8 Header.sizeof = 80) as EaH by reflexivity.
  assert (align8 (getTableSize X tb sb) = up8 (lenForward X tb sb)) as EaF.
  { apply align8_up8. fold (lenForward X tb sb). unfold Int32.max_signed. lia. }
  assert (align8 (getSafeTableSize X tb sb) = up8 (lenReverse X tb sb)) as EaR.
  { apply align8_up8. fold (lenReverse X tb sb). unfold Int32.max_signed. lia. }
  assert (align8 (getTrieSize sb) = up8 (lenTrie sb)) as EaT.
  { apply align8_up8. fold (lenTrie sb). unfold Int32.max_signed. lia. }
  assert (align8 (lenStatus vals) = up8 (lenStatus vals)) as EaS.
  { apply align8_up8. unfold Int32.max_signed. lia. }
  assert (align8 (lenRules stripped + 2) = up8 (lenRules stripped + 2)) as EaU.
  { apply align8_up8. unfold Int32.max_signed.
    pose proof (up8_bounds (lenRules stripped + 2)).
    unfold offEnd in Hfits. fold stripped in Hfits. lia. }
  pose proof (up8_bounds (lenForward X tb sb)) as BF.
  pose proof (up8_bounds (lenReverse X tb sb)) as BR.
  pose proof (up8_bounds (lenTrie sb)) as BT.
  pose proof (up8_bounds (lenStatus vals)) as BS.
  pose proof (up8_bounds (lenRules stripped + 2)) as BU.
  unfold flattenData. rewrite Hst.
  unfold set_fStrippedRules at 1 2 3. cbn [fScanner fForwardTable fSetBuilder
    fRuleStatusVals fStrippedRules fStatus set_fStrippedRules].
  rewrite Hsc, Htb, Hsb, Hvals. cbn [deref obind].
  fold stripped. unfold sectionSizes.
  cbn [szForward szReverse szTrie szStatus szRules].
  rewrite EszS, EszU, EaH, EaF, EaR, EaT, EaS, EaU.
  assert (80 + up8 (lenForward X tb sb) + up8 (lenReverse X tb sb)
          + up8 (lenStatus vals) + up8 (lenTrie sb)
          + up8 (lenRules stripped + 2)
          = offEnd X tb sb vals stripped) as Etot.
  { unfold offEnd, offRules, offStatus, offTrie, offReverse, offForward,
      Header.sizeof. lia. }
  rewrite Etot.
  rewrite (to_int32_small (offEnd X tb sb vals stripped))
    by (unfold Int32.max_signed; lia).
  unfold uprv_malloc.
  destruct (malloc_ok X (offEnd X tb sb vals stripped)); [| reflexivity].
  assert (Int32.to_uint32 80 = offForward) as EoF by reflexivity.
  rewrite EoF.
  rewrite (to_uint32_small (up8 (lenForward X tb sb)))
    by (unfold Int32.modulus; lia).
  rewrite (to_uint32_small (up8 (lenReverse X tb sb)))
    by (unfold Int32.modulus; lia).
  fold (offReverse X tb sb).
  rewrite (to_uint32_small (offReverse X tb sb))
    by (unfold Int32.modulus; lia).
  fold (offTrie X tb sb).
  rewrite (to_uint32_small (offTrie X tb sb))
    by (unfold Int32.modulus; lia).
  fold (offStatus X tb sb).
  rewrite (to_uint32_small (offStatus X tb sb))
    by (unfold Int32.modulus; lia).
  fold (offRules X tb sb vals).
  rewrite (to_uint32_small (offRules X tb sb vals))
    by (unfold Int32.modulus; lia).
  rewrite UnicodeString_extract_fits.
  - unfold flat_image.
    replace (Z.of_nat (length stripped) * 2) with (lenRules stripped)
      by (unfold lenRules; lia).
    replace (2 * Z.of_nat (length stripped)) with (lenRules stripped)
      by (unfold lenRules; lia).
    reflexivity.
  - rewrite U_SUCCESS_FAILURE, Hst. reflexivity.
  - unfold lenRules in *.
    assert (0 <= up8 (2 * Z.of_nat (length stripped) + 2)) as Hnn by lia.
    pose proof (Z.quot_div_nonneg _ 2 Hnn ltac:(lia)) as Hq.
    rewrite Hq. Z.div_mod_to_equations. lia.
Qed.

Lemma length_store32 be off v (m : memory) :
  length (store32 be off v m) = length m.
Proof. apply length_write_bytes. Qed.

Lemma length_uprv_memset (m : memory) v n : length (uprv_memset m v n) = length m.
Proof. apply length_inserts. Qed.

Lemma load32_store32_other be o' v (m : memory) o :
  (Z.to_nat o + 4 <= Z.to_nat o' \/ Z.to_nat o' + 4 <= Z.to_nat o)%nat ->
  load32 be (store32 be o' v m) o = load32 be m o.
Proof.
  intros H. unfold store32. apply load32_write_bytes_out.
  rewrite length_int_bytes. exact H.
Qed.

Lemma store32_lookup_out be off v (m : memory) (j : nat) :
  (j < Z.to_nat off \/ Z.to_nat off + 4 <= j)%nat ->
  store32 be off v m !! j = m !! j.
Proof.
  intros H. unfold store32. apply write_bytes_lookup_out.
  rewrite length_int_bytes. exact H.
Qed.

Lemma length_flat_image be ver X tb sb vals stripped (block : memory) :
  length (flat_image be ver X tb sb vals stripped block) = length block.
Proof.
  unfold flat_image. cbv zeta.
  rewrite ?length_write_bytes, ?length_store32.
  repeat (rewrite ?length_write_bytes; rewrite ?length_store32).
  apply length_uprv_memset.
Qed.

(** Side conditions on offsets: the header offsets are numerals. *)
Ltac header_offsets :=
  unfold Header.fMagic, Header.fFormatVersion, Header.fLength,
    Header.fCatCount, Header.fFTable, Header.fFTableLen, Header.fRTable,
    Header.fRTableLen, Header.fTrie, Header.fTrieLen, Header.fRuleSource,
    Header.fRuleSourceLen, Header.fStatusTable, Header.fStatusTableLen,
    Header.fReserved, Header.sizeof_fReserved, Header.sizeof in *.

Ltac layout_side :=
  rewrite ?length_int_bytes, ?length_map, ?length_seq, ?length_replicate,
    ?length_i32_bytes, ?length_u16_bytes;
  header_offsets; cbn [length]; lia.

(** A load of a header field goes through the later stores. *)
Ltac load_through :=
  repeat first
    [ rewrite load32_store32_other by layout_side
    | rewrite load32_write_bytes_out by layout_side ].

Section LayoutFacts.

Variable be : bool.
Variable ver : list byte.
Variable X : Collaborators.
Variable tb : RBBITableBuilder.
Variable sb : RBBISetBuilder.
Variable vals : list Z.
Variable stripped : UnicodeString.
Variable block : memory.
Hypothesis Hblock : length block = Z.to_nat (offEnd X tb sb vals stripped).

Let image := flat_image be ver X tb sb vals stripped block.

Lemma flat_image_header_field (f v : Z) (inner : memory) :
  0 <= f -> f + 4 <= 80 -> length inner = length block ->
  load32 be (store32 be f v inner) f = Int32.to_uint32 v.
Proof.
  intros Hf Hf4 Hlen. apply load32_store32. rewrite Hlen, Hblock.
  pose proof (offsets_ordered X tb sb vals stripped) as (? & ? & ? & ? & ? & ?).
  pose proof (lengths_nonneg X tb sb vals stripped) as (? & ? & ? & ? & ?).
  lia.
Qed.

Ltac field_value :=
  pose proof (offsets_ordered X tb sb vals stripped) as (? & ? & ? & ? & ? & ?);
  pose proof (lengths_nonneg X tb sb vals stripped) as (? & ? & ? & ? & ?);
  unfold image, flat_image; cbv zeta;
  cbn [length];
  load_through;
  rewrite flat_image_header_field;
  [ reflexivity
  | header_offsets; lia
  | header_offsets; lia
  | repeat (rewrite ?length_write_bytes; rewrite ?length_store32);
    apply length_uprv_memset ].

Lemma image_fLength :
  load32 be image Header.fLength
  = Int32.to_uint32 (offEnd X tb sb vals stripped).
Proof. field_value. Qed.

Lemma image_fFTable :
  load32 be image Header.fFTable = Int32.to_uint32 (offForward).
Proof. field_value. Qed.

Lemma image_fFTableLen :
  load32 be image Header.fFTableLen
  = Int32.to_uint32 (up8 (lenForward X tb sb)).
Proof. field_value. Qed.

Lemma image_fRTable :
  load32 be image Header.fRTable = Int32.to_uint32 (offReverse X tb sb).
Proof. field_value. Qed.

Lemma image_fRTableLen :
  load32 be image Header.fRTableLen
  = Int32.to_uint32 (up8 (lenReverse X tb sb)).
Proof. field_value. Qed.

Lemma image_fTrie :
  load32 be image Header.fTrie = Int32.to_uint32 (offTrie X tb sb).
Proof. field_value. Qed.

Lemma image_fTrieLen :
  load32 be image Header.fTrieLen = Int32.to_uint32 (lenTrie sb).
Proof. field_value. Qed.

Lemma image_fStatusTable :
  load32 be image Header.fStatusTable = Int32.to_uint32 (offStatus X tb sb).
Proof. field_value. Qed.

Lemma image_fStatusTableLen :
  load32 be image Header.fStatusTableLen
  = Int32.to_uint32 (up8 (lenStatus vals)).
Proof. field_value. Qed.

Lemma image_fRuleSource :
  load32 be image Header.fRuleSource
  = Int32.to_uint32 (offRules X tb sb vals).
Proof. field_value. Qed.

Lemma image_fRuleSourceLen :
  load32 be image Header.fRuleSourceLen
  = Int32.to_uint32 (lenRules stripped).
Proof. field_value. Qed.

End LayoutFacts.

Lemma flattenData_Some_inv be ver X rb blob rb' tb sb vals :
  flattenData be ver X rb = Ok (Some blob, rb') ->
  fForwardTable rb = Some tb ->
  fSetBuilder rb = Some sb ->
  fRuleStatusVals rb = Some vals ->
  flatten_fits X tb sb vals (stripRules X (fStrippedRules rb)) = true ->
  blob = flat_image be ver X tb sb vals (stripRules X (fStrippedRules rb))
           (map (malloc_garbage X)
              (seq 0 (Z.to_nat
                 (offEnd X tb sb vals (stripRules X (fStrippedRules rb))))))
  /\ fStatus rb' = fStatus rb
  /\ U_FAILURE (fStatus rb) = false.
Proof.
  intros Hrun Htb Hsb Hvals Hfits.
  destruct (U_FAILURE (fStatus rb)) eqn:Hst.
  { unfold flattenData in Hrun. rewrite Hst in Hrun. discriminate. }
  destruct (fScanner rb) as [sc |] eqn:Hsc.
  2:{ unfold flattenData in Hrun. rewrite Hst, Hsc in Hrun. discriminate. }
  rewrite (flattenData_fits be ver X rb sc tb sb vals) in Hrun by assumption.
  destruct (malloc_ok X _); [| discriminate].
  injection Hrun as <- <-. repeat split.
Qed.

Lemma u16_bytes_nul be : u16_bytes be [0] = [0; 0].
Proof. destruct be; reflexivity. Qed.

Section PaddingFacts.

Variable be : bool.
Variable ver : list byte.
Variable X : Collaborators.
Variable tb : RBBITableBuilder.
Variable sb : RBBISetBuilder.
Variable vals : list Z.
Variable stripped : UnicodeString.
Variable block : memory.
Hypothesis Hblock : length block = Z.to_nat (offEnd X tb sb vals stripped).

Lemma flat_image_padding i :
  in_padding X tb sb vals stripped i ->
  byte_at (flat_image be ver X tb sb vals stripped block) i = Some 0.
Proof.
  intros Hi.
  pose proof (offsets_ordered X tb sb vals stripped) as (? & ? & ? & ? & ? & ?).
  pose proof (lengths_nonneg X tb sb vals stripped) as (? & ? & ? & ? & ?).
  assert (80 <= i < offEnd X tb sb vals stripped) as Hrange
    by (unfold in_padding in Hi; lia).
  unfold byte_at, flat_image. cbv zeta.
  destruct (decide (offRules X tb sb vals + lenRules stripped <= i
                    < offRules X tb sb vals + lenRules stripped + 2))
    as [Hterm | Hterm].
  - rewrite write_bytes_lookup_in.
    + rewrite u16_bytes_nul.
      assert ((Z.to_nat i
               - Z.to_nat (offRules X tb sb vals + lenRules stripped))%nat
              = 0%nat
              \/ (Z.to_nat i
                  - Z.to_nat (offRules X tb sb vals + lenRules stripped))%nat
                 = 1%nat) as [-> | ->] by lia; reflexivity.
    + rewrite u16_bytes_nul. cbn [length]. lia.
    + repeat (rewrite ?length_write_bytes; rewrite ?length_store32).
      rewrite length_uprv_memset, Hblock. lia.
  - unfold in_padding in Hi.
    rewrite write_bytes_lookup_out by (rewrite u16_bytes_nul; layout_side).
    unfold lenRules, lenStatus, lenTrie, getTrieSize, lenForward,
      lenReverse, getTableSize, getSafeTableSize, serializeTrie in *.
    repeat first
      [ rewrite store32_lookup_out by layout_side
      | rewrite write_bytes_lookup_out by layout_side ].
    rewrite uprv_memset_all by (rewrite Hblock; reflexivity).
    apply lookup_replicate_2. rewrite Hblock. lia.
Qed.

End PaddingFacts.

(** What [flatten_fits] gives: every size is one [align8] rounds up, and
    every offset is a non-negative [int32_t]. *)
Lemma flatten_fits_facts X tb sb vals stripped :
  flatten_fits X tb sb vals stripped = true ->
  align8 (getTableSize X tb sb) = up8 (lenForward X tb sb)
  /\ align8 (getSafeTableSize X tb sb) = up8 (lenReverse X tb sb)
  /\ align8 (getTrieSize sb) = up8 (lenTrie sb)
  /\ align8 (4 * Z.of_nat (length vals)) = up8 (lenStatus vals)
  /\ align8 (2 * (Z.of_nat (length stripped) + 1)) = up8 (lenRules stripped + 2)
  /\ 0 <= offEnd X tb sb vals stripped <= Int32.max_signed.
Proof.
  intros Hfits. unfold flatten_fits in Hfits. apply Z.leb_le in Hfits.
  pose proof (lengths_nonneg X tb sb vals stripped) as (HF & HR & HT & HS & HU).
  pose proof (offsets_ordered X tb sb vals stripped)
    as (H80 & HoR & HoT & HoS & HoU & HoE).
  pose proof (up8_bounds (lenRules stripped + 2)) as BU.
  unfold Int32.max_signed in *.
  assert (offRules X tb sb vals + up8 (lenRules stripped + 2)
          = offEnd X tb sb vals stripped) as EE by reflexivity.
  repeat split.
  - apply align8_up8. fold (lenForward X tb sb). unfold Int32.max_signed. lia.
  - apply align8_up8. fold (lenReverse X tb sb). unfold Int32.max_signed. lia.
  - apply align8_up8. fold (lenTrie sb). unfold Int32.max_signed. lia.
  - apply align8_up8. fold (lenStatus vals). unfold Int32.max_signed. lia.
  - replace (2 * (Z.of_nat (length stripped) + 1))
      with (lenRules stripped + 2) by (unfold lenRules; lia).
    apply align8_up8. unfold Int32.max_signed. lia.
  - lia.
  - lia.
Qed.

(** ** The header the flattener writes *)

(** The lengths flattenData declares, for every run whose sizes fit: the
    forward table, the safe table and the status table are declared with
    their padded length, the trie and the rule source with their unpadded
    length. *)
Lemma flattenData_declared_lengths be ver X rb blob rb' tb sb vals :
  flattenData be ver X rb = Ok (Some blob, rb') ->
  fForwardTable rb = Some tb ->
  fSetBuilder rb = Some sb ->
  fRuleStatusVals rb = Some vals ->
  flatten_fits X tb sb vals (stripRules X (fStrippedRules rb)) = true ->
  load32 be blob Header.fFTableLen = up8 (getTableSize X tb sb)
  /\ load32 be blob Header.fRTableLen = up8 (getSafeTableSize X tb sb)
  /\ load32 be blob Header.fTrieLen = getTrieSize sb
  /\ load32 be blob Header.fStatusTableLen = up8 (4 * Z.of_nat (length vals))
  /\ load32 be blob Header.fRuleSourceLen
     = 2 * Z.of_nat (length (stripRules X (fStrippedRules rb))).
Proof.
  intros Hrun Htb Hsb Hvals Hfits.
  destruct (flattenData_Some_inv _ _ _ _ _ _ _ _ _ Hrun Htb Hsb Hvals Hfits)
    as (-> & _ & _).
  set (stripped := stripRules X (fStrippedRules rb)) in *.
  pose proof (flatten_fits_facts _ _ _ _ _ Hfits) as (_ & _ & _ & _ & _ & HE).
  pose proof (lengths_nonneg X tb sb vals stripped) as (HF & HR & HT & HS & HU).
  pose proof (offsets_ordered X tb sb vals stripped)
    as (H80 & HoR & HoT & HoS & HoU & HoE).
  pose proof (up8_bounds (lenForward X tb sb)) as BF.
  pose proof (up8_bounds (lenReverse X tb sb)) as BR.
  pose proof (up8_bounds (lenStatus vals)) as BS.
  unfold Int32.max_signed in HE.
  assert (length (map (malloc_garbage X)
                    (seq 0 (Z.to_nat (offEnd X tb sb vals stripped))))
          = Z.to_nat (offEnd X tb sb vals stripped)) as Hblock
    by (rewrite length_map, length_seq; reflexivity).
  rewrite image_fFTableLen, image_fRTableLen, image_fTrieLen,
    image_fStatusTableLen, image_fRuleSourceLen by exact Hblock.
  rewrite !to_uint32_small by (unfold Int32.modulus; lia).
  repeat split.
Qed.

(** C1, at a failing input: the status list holds five values, twenty
    bytes, and the forward table is exported in fifteen bytes; the header
    flattenData writes declares twenty-four bytes for the status table and
    sixteen for the forward table, the padded lengths, where the comment of
    lines 148-149 promises the lengths without the padding. *)
Theorem flattenData_declares_padded_lengths :
  exists blob rb',
    flattenData false sample_version sample_X sample_rb = Ok (Some blob, rb')
    /\ U_FAILURE (fStatus rb') = false
    /\ fRuleStatusVals rb' = Some [1; 0; 2; 1; 2]
    /\ 4 * Z.of_nat (length [1; 0; 2; 1; 2]) = 20
    /\ load32 false blob Header.fStatusTableLen = 24
    /\ getTableSize sample_X sample_table sample_sets = 15
    /\ load32 false blob Header.fFTableLen = 16.
Proof.
  eexists. eexists. split.
  - vm_compute. reflexivity.
  - vm_compute. repeat split; reflexivity.
Qed.

(** C2: for every successful run of flattenData whose sizes fit in an
    [int32_t], the declared total length [fLength] is the aligned header
    size plus the five aligned section sizes and is the size of the block;
    every section offset of the header is a multiple of 8; and no declared
    section length exceeds the padded region of the section, which ends
    where the next section starts, or where the block ends. *)
Theorem flattenData_total_length_and_alignment
    be ver X rb blob rb' tb sb vals :
  flattenData be ver X rb = Ok (Some blob, rb') ->
  fForwardTable rb = Some tb ->
  fSetBuilder rb = Some sb ->
  fRuleStatusVals rb = Some vals ->
  flatten_fits X tb sb vals (stripRules X (fStrippedRules rb)) = true ->
  load32 be blob Header.fLength
  = align8 Header.sizeof
    + align8 (getTableSize X tb sb)
    + align8 (getSafeTableSize X tb sb)
    + align8 (getTrieSize sb)
    + align8 (4 * Z.of_nat (length vals))
    + align8 (2 * (Z.of_nat (length (stripRules X (fStrippedRules rb))) + 1))
  /\ Z.of_nat (length blob) = load32 be blob Header.fLength
  /\ load32 be blob Header.fFTable mod 8 = 0
  /\ load32 be blob Header.fRTable mod 8 = 0
  /\ load32 be blob Header.fTrie mod 8 = 0
  /\ load32 be blob Header.fStatusTable mod 8 = 0
  /\ load32 be blob Header.fRuleSource mod 8 = 0
  /\ load32 be blob Header.fFTableLen
     <= load32 be blob Header.fRTable - load32 be blob Header.fFTable
  /\ load32 be blob Header.fRTableLen
     <= load32 be blob Header.fTrie - load32 be blob Header.fRTable
  /\ load32 be blob Header.fTrieLen
     <= load32 be blob Header.fStatusTable - load32 be blob Header.fTrie
  /\ load32 be blob Header.fStatusTableLen
     <= load32 be blob Header.fRuleSource - load32 be blob Header.fStatusTable
  /\ load32 be blob Header.fRuleSourceLen
     <= load32 be blob Header.fLength - load32 be blob Header.fRuleSource.
Proof.
  intros Hrun Htb Hsb Hvals Hfits.
  destruct (flattenData_Some_inv _ _ _ _ _ _ _ _ _ Hrun Htb Hsb Hvals Hfits)
    as (-> & _ & _).
  set (stripped := stripRules X (fStrippedRules rb)) in *.
  pose proof (flatten_fits_facts _ _ _ _ _ Hfits)
    as (EaF & EaR & EaT & EaS & EaU & HE).
  pose proof (lengths_nonneg X tb sb vals stripped) as (HF & HR & HT & HS & HU).
  pose proof (offsets_ordered X tb sb vals stripped)
    as (H80 & HoR & HoT & HoS & HoU & HoE).
  pose proof (up8_bounds (lenForward X tb sb)) as BF.
  pose proof (up8_bounds (lenReverse X tb sb)) as BR.
  pose proof (up8_bounds (lenTrie sb)) as BT.
  pose proof (up8_bounds (lenStatus vals)) as BS.
  pose proof (up8_bounds (lenRules stripped + 2)) as BU.
  pose proof (up8_mod8 (lenForward X tb sb)) as MF.
  pose proof (up8_mod8 (lenReverse X tb sb)) as MR.
  pose proof (up8_mod8 (lenTrie sb)) as MT.
  pose proof (up8_mod8 (lenStatus vals)) as MS.
  unfold Int32.max_signed in HE.
  assert (length (map (malloc_garbage X)
                    (seq 0 (Z.to_nat (offEnd X tb sb vals stripped))))
          = Z.to_nat (offEnd X tb sb vals stripped)) as Hblock
    by (rewrite length_map, length_seq; reflexivity).
  rewrite length_flat_image, Hblock.
  rewrite image_fLength, image_fFTable, image_fFTableLen, image_fRTable,
    image_fRTableLen, image_fTrie, image_fTrieLen, image_fStatusTable,
    image_fStatusTableLen, image_fRuleSource, image_fRuleSourceLen
    by exact Hblock.
  rewrite EaF, EaR, EaT, EaS, EaU.
  change (align8 Header.sizeof) with 80.
  assert (offEnd X tb sb vals stripped
          = 80 + up8 (lenForward X tb sb) + up8 (lenReverse X tb sb)
            + up8 (lenTrie sb) + up8 (lenStatus vals)
            + up8 (lenRules stripped + 2)) as EE
    by (unfold offEnd, offRules, offStatus, offTrie, offReverse, offForward,
          Header.sizeof; lia).
  assert (offReverse X tb sb = 80 + up8 (lenForward X tb sb)) as ER
    by (unfold offReverse, offForward, Header.sizeof; lia).
  assert (offTrie X tb sb = offReverse X tb sb + up8 (lenReverse X tb sb))
    as ET by reflexivity.
  assert (offStatus X tb sb = offTrie X tb sb + up8 (lenTrie sb))
    as ES by reflexivity.
  assert (offRules X tb sb vals = offStatus X tb sb + up8 (lenStatus vals))
    as EU by reflexivity.
  rewrite !to_uint32_small by (unfold Int32.modulus; lia).
  repeat split; try lia; try reflexivity;
    rewrite ?EU, ?ES, ?ET, ?ER; Z.div_mod_to_equations; lia.
Qed.

Lemma flattenData_total_length_and_alignment_witness :
  load32 false sample_blob Header.fLength = 80 + 16 + 8 + 8 + 24 + 8
  /\ Z.of_nat (length sample_blob) = load32 false sample_blob Header.fLength
  /\ load32 false sample_blob Header.fStatusTable mod 8 = 0.
Proof.
  pose proof (flattenData_total_length_and_alignment false sample_version
                sample_X sample_rb sample_blob
                (set_fStatus 0 (set_fStrippedRules [97; 98; 59] sample_rb))
                sample_table sample_sets [1; 0; 2; 1; 2]
                eq_refl eq_refl eq_refl eq_refl eq_refl)
    as (H1 & H2 & _ & _ & _ & H3 & _).
  split; [exact H1 | split; [exact H2 | exact H3]].
Defined.

(** ** Zero fill *)

Lemma uprv_memset_fresh (g : nat -> byte) v n :
  uprv_memset (map g (seq 0 (Z.to_nat n))) v n = replicate (Z.to_nat n) v.
Proof.
  rewrite uprv_memset_all by (rewrite length_map, length_seq; reflexivity).
  rewrite length_map, length_seq. reflexivity.
Qed.

(** The block flattenData returns does not depend on what the allocator
    left in it: [uprv_memset] clears all of it before the first store. *)
Lemma flattenData_garbage_irrelevant be ver X g rb :
  flattenData be ver (with_malloc_garbage g X) rb = flattenData be ver X rb.
Proof.
  unfold flattenData.
  destruct (U_FAILURE (fStatus rb)); [reflexivity |].
  destruct (fScanner rb); [| reflexivity]. cbn [deref obind].
  cbn [set_fStrippedRules fForwardTable fSetBuilder fRuleStatusVals
       fStrippedRules fStatus].
  destruct (fForwardTable rb) as [tb |]; [| reflexivity].
  destruct (fSetBuilder rb) as [sb |]; [| reflexivity].
  destruct (fRuleStatusVals rb) as [vals |]; [| reflexivity].
  cbn [deref obind]. cbv zeta.
  unfold uprv_malloc, sectionSizes, getTableSize, getSafeTableSize.
  cbn [with_malloc_garbage malloc_ok malloc_garbage stripRules exportTable
       exportSafeTable szForward szReverse szTrie szStatus szRules].
  destruct (malloc_ok X _); [| reflexivity].
  rewrite !uprv_memset_fresh. reflexivity.
Qed.

(** C3: the whole block is cleared before the first store, so the block
    flattenData returns is the same whatever the allocator left in it, and
    every byte from the logical end of a section to the start of the next
    section (to the end of the block for the last one) is zero. *)
Theorem flattenData_zero_fill be ver X rb blob rb' tb sb vals :
  flattenData be ver X rb = Ok (Some blob, rb') ->
  fForwardTable rb = Some tb ->
  fSetBuilder rb = Some sb ->
  fRuleStatusVals rb = Some vals ->
  flatten_fits X tb sb vals (stripRules X (fStrippedRules rb)) = true ->
  (forall g : nat -> byte,
     flattenData be ver (with_malloc_garbage g X) rb = Ok (Some blob, rb'))
  /\ (forall i : Z,
        in_padding X tb sb vals (stripRules X (fStrippedRules rb)) i ->
        byte_at blob i = Some 0).
Proof.
  intros Hrun Htb Hsb Hvals Hfits. split.
  - intros g. rewrite flattenData_garbage_irrelevant. exact Hrun.
  - intros i Hi.
    destruct (flattenData_Some_inv _ _ _ _ _ _ _ _ _ Hrun Htb Hsb Hvals Hfits)
      as (-> & _ & _).
    apply flat_image_padding; [| exact Hi].
    rewrite length_map, length_seq. reflexivity.
Qed.

Lemma flattenData_zero_fill_witness :
  flattenData false sample_version
    (with_malloc_garbage (fun k => Z.of_nat k mod 256) sample_X) sample_rb
  = Ok (Some sample_blob,
        set_fStatus 0 (set_fStrippedRules [97; 98; 59] sample_rb))
  /\ byte_at sample_blob 95 = Some 0
  /\ byte_at sample_blob 133 = Some 0.
Proof.
  pose proof (flattenData_zero_fill false sample_version
                sample_X sample_rb sample_blob
                (set_fStatus 0 (set_fStrippedRules [97; 98; 59] sample_rb))
                sample_table sample_sets [1; 0; 2; 1; 2]
                eq_refl eq_refl eq_refl eq_refl eq_refl)
    as (H1 & H2).
  split; [exact (H1 _) | split; apply H2; unfold in_padding].
  - left. split; [vm_compute; discriminate | reflexivity].
  - do 3 right. left. split; [vm_compute; discriminate | reflexivity].
Defined.

(** ** The column search *)

Lemma find_second_Some n tb f s c :
  find_second n tb f s = Some c ->
  s <= c < s + Z.of_nat n /\ columns_identical tb f c = true.
Proof.
  revert s. induction n as [| n IH]; intros s H; [discriminate |].
  cbn [find_second] in H.
  destruct (columns_identical tb f s) eqn:E.
  - injection H as <-. split; [lia | exact E].
  - apply IH in H. destruct H as [H1 H2]. split; [lia | exact H2].
Qed.

Lemma find_second_None n tb f s :
  find_second n tb f s = None ->
  forall c, s <= c < s + Z.of_nat n -> columns_identical tb f c = false.
Proof.
  revert s. induction n as [| n IH]; intros s H c Hc; [lia |].
  cbn [find_second] in H.
  destruct (columns_identical tb f s) eqn:E; [discriminate |].
  destruct (Z.eq_dec c s) as [-> | Hne]; [exact E |].
  apply (IH (s + 1) H). lia.
Qed.

Lemma find_first_Some n tb numCols f p :
  find_first n tb numCols f = Some p ->
  f <= first p < f + Z.of_nat n
  /\ first p < second p < numCols
  /\ columns_identical tb (first p) (second p) = true.
Proof.
  revert f. induction n as [| n IH]; intros f H; [discriminate |].
  cbn [find_first] in H.
  destruct (find_second _ tb f (f + 1)) as [c |] eqn:E.
  - injection H as <-. apply find_second_Some in E.
    destruct E as [E1 E2]. cbn [first second].
    split; [lia |]. split; [lia | exact E2].
  - apply IH in H. destruct H as (H1 & H2 & H3).
    split; [lia |]. split; [exact H2 | exact H3].
Qed.

Lemma find_first_None n tb numCols f :
  find_first n tb numCols f = None ->
  forall i j, f <= i < f + Z.of_nat n -> i < j < numCols ->
  columns_identical tb i j = false.
Proof.
  revert f. induction n as [| n IH]; intros f H i j Hi Hj; [lia |].
  cbn [find_first] in H.
  destruct (find_second _ tb f (f + 1)) as [c |] eqn:E; [discriminate |].
  destruct (Z.eq_dec i f) as [-> | Hne].
  - apply (find_second_None _ _ _ _ E). lia.
  - apply (IH (f + 1) H); lia.
Qed.

(** A pair the search returns lies at or after the start, inside the
    table, lower index first, and its columns are identical. *)
Lemma findDuplCharClassFrom_Some tb sb start p :
  findDuplCharClassFrom tb sb start = Some p ->
  first start <= first p
  /\ first p < second p < getNumCharCategories sb
  /\ columns_identical tb (first p) (second p) = true.
Proof.
  unfold findDuplCharClassFrom. intros H.
  apply find_first_Some in H. destruct H as (H1 & H2 & H3).
  split; [lia |]. split; [exact H2 | exact H3].
Qed.

(** When the search returns nothing, no pair at or after the start has
    identical columns. *)
Lemma findDuplCharClassFrom_None tb sb start :
  findDuplCharClassFrom tb sb start = None ->
  forall i j, first start <= i -> i < j < getNumCharCategories sb ->
  columns_identical tb i j = false.
Proof.
  unfold findDuplCharClassFrom. intros H i j Hi Hj.
  apply (find_first_None _ _ _ _ H); lia.
Qed.

Lemma getNumCharCategories_merge p sb :
  getNumCharCategories (mergeCategories p sb) = getNumCharCategories sb - 1.
Proof. unfold getNumCharCategories, mergeCategories. cbn [fGroupCount]. lia. Qed.

Lemma length_removeColumn c tb :
  length (fDStates (removeColumn c tb)) = length (fDStates tb).
Proof. unfold removeColumn. cbn [fDStates]. apply length_map. Qed.

(** ** The row merge *)

Lemma find_dupl_of_Some sd rest j0 j :
  find_dupl_of sd rest j0 = Some j -> (j0 <= j < j0 + length rest)%nat.
Proof.
  revert j0. induction rest as [| sd' rest IH]; intros j0 H; [discriminate |].
  cbn [find_dupl_of] in H. cbn [length].
  destruct (states_identical sd sd').
  - injection H as <-. lia.
  - apply IH in H. lia.
Qed.

Lemma findDuplicateState_Some states i0 i j :
  findDuplicateState states i0 = Some (i, j) ->
  (i0 <= i < j /\ j < i0 + length states)%nat.
Proof.
  revert i0. induction states as [| sd rest IH]; intros i0 H; [discriminate |].
  cbn [findDuplicateState] in H. cbn [length].
  destruct (find_dupl_of sd rest (S i0)) as [j' |] eqn:E.
  - injection H as <- <-. apply find_dupl_of_Some in E. lia.
  - apply IH in H. lia.
Qed.

Lemma length_removeState keep dupl states :
  (dupl < length states)%nat ->
  length (removeState keep dupl states) = (length states - 1)%nat.
Proof.
  intros H. unfold removeState. rewrite length_map.
  apply length_delete. apply lookup_lt_is_Some_2. exact H.
Qed.

Lemma remove_states_loop_spec n states k states' k' :
  remove_states_loop n states k = (states', k') ->
  k <= k'
  /\ Z.of_nat (length states') + (k' - k) = Z.of_nat (length states)
  /\ (k' = k -> states' = states).
Proof.
  revert states k. induction n as [| n IH]; intros states k H.
  - cbn [remove_states_loop] in H. injection H as <- <-.
    split; [lia |]. split; [lia | reflexivity].
  - cbn [remove_states_loop] in H.
    destruct (findDuplicateState states 0) as [[keep dupl] |] eqn:E.
    + apply IH in H. destruct H as (H1 & H2 & H3).
      apply findDuplicateState_Some in E.
      rewrite length_removeState in H2 by lia.
      split; [lia |]. split; [lia |]. intros ->. lia.
    + injection H as <- <-. split; [lia |]. split; [lia | reflexivity].
Qed.

(** The loop stops on a table without identical rows: the number of rows
    is fuel enough. *)
Lemma remove_states_loop_done n states k states' k' :
  remove_states_loop n states k = (states', k') ->
  (length states <= n)%nat ->
  findDuplicateState states' 0 = None.
Proof.
  revert states k. induction n as [| n IH]; intros states k H Hlen.
  - cbn [remove_states_loop] in H. injection H as <- <-.
    destruct states; [reflexivity | cbn [length] in Hlen; lia].
  - cbn [remove_states_loop] in H.
    destruct (findDuplicateState states 0) as [[keep dupl] |] eqn:E.
    + apply (IH _ _ H).
      apply findDuplicateState_Some in E.
      rewrite length_removeState by lia. lia.
    + injection H as <- <-. exact E.
Qed.

Lemma removeDuplicateStates_spec tb tb' n :
  removeDuplicateStates tb = (tb', n) ->
  0 <= n
  /\ Z.of_nat (length (fDStates tb')) + n = Z.of_nat (length (fDStates tb))
  /\ (n = 0 -> tb' = tb)
  /\ findDuplicateState (fDStates tb') 0 = None.
Proof.
  unfold removeDuplicateStates. intros H.
  destruct (remove_states_loop (length (fDStates tb)) (fDStates tb) 0)
    as [states k] eqn:E.
  injection H as <- <-. cbn [fDStates].
  pose proof (remove_states_loop_spec _ _ _ _ _ E) as (H1 & H2 & H3).
  split; [lia |]. split; [lia |]. split.
  - intros ->. rewrite H3 by reflexivity. destruct tb; reflexivity.
  - apply (remove_states_loop_done _ _ _ _ _ E). lia.
Qed.

(** On a table without identical rows the pass merges nothing. *)
Lemma removeDuplicateStates_fixed tb :
  findDuplicateState (fDStates tb) 0 = None ->
  removeDuplicateStates tb = (tb, 0).
Proof.
  intros H. unfold removeDuplicateStates.
  destruct (fDStates tb) as [| sd rest] eqn:E.
  - cbn [length remove_states_loop]. destruct tb; cbn in *; subst; reflexivity.
  - cbn [length remove_states_loop]. rewrite H.
    destruct tb; cbn in *; subst; reflexivity.
Qed.

Lemma column_loop_spec fuel p tb sb did tb' sb' did' evs :
  column_loop fuel p tb sb did = Some (tb', sb', did', evs) ->
  3 <= first p ->
  length (fDStates tb') = length (fDStates tb)
  /\ ((did' = did /\ tb' = tb /\ sb' = sb
       /\ findDuplCharClassFrom tb sb p = None)
      \/ (did' = true
          /\ (Z.to_nat (getNumCharCategories sb')
              < Z.to_nat (getNumCharCategories sb))%nat))
  /\ col_phase p evs.
Proof.
  revert p tb sb did tb' sb' did' evs.
  induction fuel as [| fuel IH]; intros p tb sb did tb' sb' did' evs H Hp;
    [discriminate |].
  cbn [column_loop] in H.
  destruct (findDuplCharClassFrom tb sb p) as [q |] eqn:E.
  - cbv zeta in H.
    destruct (column_loop fuel q _ _ true)
      as [[[[tb1 sb1] did1] evs1] |] eqn:E1; [| discriminate].
    injection H as <- <- <- <-.
    apply findDuplCharClassFrom_Some in E. destruct E as (Q1 & Q2 & Q3).
    apply IH in E1; [| lia]. destruct E1 as (L & D & C).
    rewrite length_removeColumn in L. split; [exact L |]. split.
    + right. rewrite getNumCharCategories_merge in D.
      destruct D as [(-> & _ & -> & _) | (-> & D)].
      * split; [reflexivity |]. rewrite getNumCharCategories_merge. lia.
      * split; [reflexivity | lia].
    + apply col_merge; [lia | exact C].
  - injection H as <- <- <- <-. split; [reflexivity |]. split.
    + left. repeat split. 
    + apply col_stop.
Qed.

Lemma column_loop_terminates fuel p tb sb did :
  0 <= first p ->
  (Z.to_nat (getNumCharCategories sb) < fuel)%nat ->
  exists r, column_loop fuel p tb sb did = Some r.
Proof.
  revert p tb sb did. induction fuel as [| fuel IH]; intros p tb sb did Hp Hf;
    [lia |].
  cbn [column_loop].
  destruct (findDuplCharClassFrom tb sb p) as [q |] eqn:E.
  - cbv zeta. apply findDuplCharClassFrom_Some in E.
    destruct E as (Q1 & Q2 & Q3).
    destruct (IH q (removeColumn (second q) tb) (mergeCategories q sb) true)
      as [[[[tb1 sb1] did1] evs1] E1].
    + lia.
    + rewrite getNumCharCategories_merge. lia.
    + rewrite E1. eexists. reflexivity.
  - eexists. reflexivity.
Qed.

Lemma row_loop_spec fuel tb did tb' did' evs :
  row_loop fuel tb did = Some (tb', did', evs) ->
  removeDuplicateStates tb' = (tb', 0)
  /\ ((did' = did /\ tb' = tb)
      \/ (did' = true
          /\ (length (fDStates tb') < length (fDStates tb))%nat))
  /\ row_phase evs.
Proof.
  revert tb did tb' did' evs.
  induction fuel as [| fuel IH]; intros tb did tb' did' evs H;
    [discriminate |].
  cbn [row_loop] in H.
  destruct (removeDuplicateStates tb) as [tb1 n] eqn:E.
  pose proof (removeDuplicateStates_spec _ _ _ E) as (N0 & NL & NE & NF).
  destruct (Z.ltb_spec 0 n) as [Hn | Hn].
  - destruct (row_loop fuel tb1 true) as [[[tb2 did2] evs2] |] eqn:E2;
      [| discriminate].
    injection H as <- <- <-.
    apply IH in E2. destruct E2 as (F & D & R).
    split; [exact F |]. split.
    + right. destruct D as [(-> & ->) | (-> & D)]; split;
        try reflexivity; lia.
    + apply row_more; assumption.
  - injection H as <- <- <-.
    assert (n = 0) as -> by lia. rewrite NE in * by reflexivity.
    split; [exact E |]. split.
    + left. split; reflexivity.
    + apply row_stop.
Qed.

Lemma row_loop_terminates fuel tb did :
  (length (fDStates tb) < fuel)%nat ->
  exists r, row_loop fuel tb did = Some r.
Proof.
  revert tb did. induction fuel as [| fuel IH]; intros tb did Hf; [lia |].
  cbn [row_loop].
  destruct (removeDuplicateStates tb) as [tb1 n] eqn:E.
  pose proof (removeDuplicateStates_spec _ _ _ E) as (N0 & NL & NE & NF).
  destruct (Z.ltb_spec 0 n) as [Hn | Hn].
  - destruct (IH tb1 true) as [[[tb2 did2] evs2] E2]; [lia |].
    rewrite E2. eexists. reflexivity.
  - eexists. reflexivity.
Qed.

Lemma merges_app a b : merges (a ++ b) = merges a + merges b.
Proof.
  induction a as [| e a IH]; [reflexivity |].
  destruct e; cbn [app merges]; lia.
Qed.

Lemma rows_removed_app a b :
  rows_removed (a ++ b) = rows_removed a + rows_removed b.
Proof.
  induction a as [| e a IH]; [reflexivity |].
  destruct e; cbn [app rows_removed]; lia.
Qed.

Lemma column_loop_count fuel p tb sb did tb' sb' did' evs :
  column_loop fuel p tb sb did = Some (tb', sb', did', evs) ->
  getNumCharCategories sb' + merges evs = getNumCharCategories sb
  /\ rows_removed evs = 0 /\ 0 <= merges evs.
Proof.
  revert p tb sb did tb' sb' did' evs.
  induction fuel as [| fuel IH]; intros p tb sb did tb' sb' did' evs H;
    [discriminate |].
  cbn [column_loop] in H.
  destruct (findDuplCharClassFrom tb sb p) as [q |] eqn:E.
  - cbv zeta in H.
    destruct (column_loop fuel q _ _ true)
      as [[[[tb1 sb1] did1] evs1] |] eqn:E1; [| discriminate].
    injection H as <- <- <- <-.
    apply IH in E1. destruct E1 as (C & R & M).
    rewrite getNumCharCategories_merge in C.
    cbn [merges rows_removed]. lia.
  - injection H as <- <- <- <-. cbn [merges rows_removed]. lia.
Qed.

Lemma row_loop_count fuel tb did tb' did' evs :
  row_loop fuel tb did = Some (tb', did', evs) ->
  Z.of_nat (length (fDStates tb')) + rows_removed evs
  = Z.of_nat (length (fDStates tb))
  /\ merges evs = 0 /\ 0 <= rows_removed evs.
Proof.
  revert tb did tb' did' evs.
  induction fuel as [| fuel IH]; intros tb did tb' did' evs H;
    [discriminate |].
  cbn [row_loop] in H.
  destruct (removeDuplicateStates tb) as [tb1 n] eqn:E.
  pose proof (removeDuplicateStates_spec _ _ _ E) as (N0 & NL & NE & NF).
  destruct (Z.ltb_spec 0 n) as [Hn | Hn].
  - destruct (row_loop fuel tb1 true) as [[[tb2 did2] evs2] |] eqn:E2;
      [| discriminate].
    injection H as <- <- <-. apply IH in E2.
    cbn [merges rows_removed]. lia.
  - injection H as <- <- <-. cbn [merges rows_removed]. lia.
Qed.

(** What a run of the outer loop reaches, and what it did. *)
Lemma optimize_loop_spec fuel tb sb tb' sb' evs :
  optimize_loop fuel tb sb = Some (tb', sb', evs) ->
  findDuplCharClassFrom tb' sb' (mkIntPair 3 0) = None
  /\ removeDuplicateStates tb' = (tb', 0)
  /\ pass_trace evs
  /\ getNumCharCategories sb' + merges evs = getNumCharCategories sb
  /\ Z.of_nat (length (fDStates tb')) + rows_removed evs
     = Z.of_nat (length (fDStates tb))
  /\ 0 <= merges evs /\ 0 <= rows_removed evs.
Proof.
  revert tb sb tb' sb' evs.
  induction fuel as [| fuel IH]; intros tb sb tb' sb' evs H; [discriminate |].
  cbn [optimize_loop] in H.
  destruct (column_loop fuel (mkIntPair 3 0) tb sb false)
    as [[[[tb1 sb1] did1] evs1] |] eqn:E1; [| discriminate].
  destruct (row_loop fuel tb1 did1) as [[[tb2 did2] evs2] |] eqn:E2;
    [| discriminate].
  pose proof (column_loop_spec _ _ _ _ _ _ _ _ _ E1 ltac:(cbn; lia))
    as (L1 & D1 & C1).
  pose proof (column_loop_count _ _ _ _ _ _ _ _ _ E1) as (K1 & K2 & K3).
  pose proof (row_loop_spec _ _ _ _ _ _ E2) as (F2 & D2 & R2).
  pose proof (row_loop_count _ _ _ _ _ _ E2) as (J1 & J2 & J3).
  destruct did2.
  - destruct (optimize_loop fuel tb2 sb1) as [[[tb3 sb3] evs3] |] eqn:E3;
      [| discriminate].
    injection H as <- <- <-.
    apply IH in E3. destruct E3 as (A & B & P & M & S & M0 & S0).
    split; [exact A |]. split; [exact B |]. split.
    + apply pass_more; assumption.
    + rewrite !merges_app, !rows_removed_app. lia.
  - injection H as <- <- <-.
    destruct D2 as [(<- & ->) | (? & _)]; [| discriminate].
    destruct D1 as [(_ & -> & -> & N) | (? & _)]; [| discriminate].
    split; [exact N |]. split; [exact F2 |]. split.
    + apply pass_last; assumption.
    + rewrite !merges_app, !rows_removed_app. lia.
Qed.

(** Every run of the outer loop ends when the fuel exceeds the category
    count plus the state count by two. *)
Lemma optimize_loop_terminates fuel tb sb :
  (S (Z.to_nat (getNumCharCategories sb) + length (fDStates tb)) < fuel)%nat ->
  exists r, optimize_loop fuel tb sb = Some r.
Proof.
  revert tb sb. induction fuel as [| fuel IH]; intros tb sb Hf; [lia |].
  cbn [optimize_loop].
  destruct (column_loop_terminates fuel (mkIntPair 3 0) tb sb false)
    as [[[[tb1 sb1] did1] evs1] E1]; [cbn; lia | lia |].
  rewrite E1.
  pose proof (column_loop_spec _ _ _ _ _ _ _ _ _ E1 ltac:(cbn; lia))
    as (L1 & D1 & C1).
  destruct (row_loop_terminates fuel tb1 did1) as [[[tb2 did2] evs2] E2];
    [lia |].
  rewrite E2.
  pose proof (row_loop_spec _ _ _ _ _ _ E2) as (F2 & D2 & R2).
  destruct did2; [| eexists; reflexivity].
  destruct (IH tb2 sb1) as [[[tb3 sb3] evs3] E3].
  - destruct D2 as [(<- & ->) | (_ & D2)].
    + destruct D1 as [(? & _) | (_ & D1)]; [discriminate | lia].
    + destruct D1 as [(_ & _ & -> & _) | (_ & D1)]; lia.
  - rewrite E3. eexists. reflexivity.
Qed.

(** More fuel does not change the result of a loop. *)
Lemma column_loop_more fuel fuel' p tb sb did r :
  (fuel <= fuel')%nat ->
  column_loop fuel p tb sb did = Some r ->
  column_loop fuel' p tb sb did = Some r.
Proof.
  revert fuel' p tb sb did r.
  induction fuel as [| fuel IH]; intros fuel' p tb sb did r Hle H;
    [discriminate |].
  destruct fuel' as [| fuel']; [lia |].
  cbn [column_loop] in *.
  destruct (findDuplCharClassFrom tb sb p) as [q |]; [| exact H].
  cbv zeta in *.
  destruct (column_loop fuel q _ _ true) as [r1 |] eqn:E1; [| discriminate].
  rewrite (IH fuel' _ _ _ _ _ ltac:(lia) E1). exact H.
Qed.

Lemma row_loop_more fuel fuel' tb did r :
  (fuel <= fuel')%nat ->
  row_loop fuel tb did = Some r ->
  row_loop fuel' tb did = Some r.
Proof.
  revert fuel' tb did r.
  induction fuel as [| fuel IH]; intros fuel' tb did r Hle H;
    [discriminate |].
  destruct fuel' as [| fuel']; [lia |].
  cbn [row_loop] in *.
  destruct (removeDuplicateStates tb) as [tb1 n].
  destruct (0 <? n); [| exact H].
  destruct (row_loop fuel tb1 true) as [r1 |] eqn:E1; [| discriminate].
  rewrite (IH fuel' _ _ _ ltac:(lia) E1). exact H.
Qed.

Lemma optimize_loop_more fuel fuel' tb sb r :
  (fuel <= fuel')%nat ->
  optimize_loop fuel tb sb = Some r ->
  optimize_loop fuel' tb sb = Some r.
Proof.
  revert fuel' tb sb r.
  induction fuel as [| fuel IH]; intros fuel' tb sb r Hle H;
    [discriminate |].
  destruct fuel' as [| fuel']; [lia |].
  cbn [optimize_loop] in *.
  destruct (column_loop fuel (mkIntPair 3 0) tb sb false)
    as [[[[tb1 sb1] did1] evs1] |] eqn:E1; [| discriminate].
  rewrite (column_loop_more fuel fuel' _ _ _ _ _ ltac:(lia) E1).
  destruct (row_loop fuel tb1 did1) as [[[tb2 did2] evs2] |] eqn:E2;
    [| discriminate].
  rewrite (row_loop_more fuel fuel' _ _ _ ltac:(lia) E2).
  destruct did2; [| exact H].
  destruct (optimize_loop fuel tb2 sb1) as [r3 |] eqn:E3; [| discriminate].
  rewrite (IH fuel' _ _ _ ltac:(lia) E3). exact H.
Qed.

Lemma col_phase_spares s evs :
  col_phase s evs -> 3 <= first s -> Forall spares_reserved evs.
Proof.
  induction 1 as [s | s q rest Hq Hrest IH]; intros Hs.
  - apply Forall_cons. split; [exact Hs | apply Forall_nil_2].
  - repeat (apply Forall_cons; split); cbn [spares_reserved]; try lia.
    apply IH. lia.
Qed.

Lemma row_phase_spares evs : row_phase evs -> Forall spares_reserved evs.
Proof.
  induction 1 as [| n rest Hn Hrest IH].
  - apply Forall_cons. split; [exact I | apply Forall_nil_2].
  - apply Forall_cons. split; [exact I | exact IH].
Qed.

Lemma pass_trace_spares evs : pass_trace evs -> Forall spares_reserved evs.
Proof.
  induction 1 as [c r Hc Hr | c r rest Hc Hr Hrest IH].
  - apply Forall_app. split.
    + apply (col_phase_spares _ _ Hc). cbn. lia.
    + apply row_phase_spares. exact Hr.
  - apply Forall_app. split.
    + apply (col_phase_spares _ _ Hc). cbn. lia.
    + apply Forall_app. split; [apply row_phase_spares; exact Hr | exact IH].
Qed.

(** ** The minimisation: fixed point, reserved categories, termination *)

(** C4 as it is stated fails: on the sample table, whose reserved columns
    0, 1 and 2 hold the same transitions, optimizeTables returns a table
    in which the distinct columns 0 and 1 are still identical across every
    state. *)
Lemma optimizeTables_keeps_reserved_duplicates :
  ~ (forall tb sb tb' sb' evs,
       optimizeTables_core tb sb = Some (tb', sb', evs) ->
       forall i j, 0 <= i -> i < j < getNumCharCategories sb' ->
       columns_identical tb' i j = false).
Proof.
  intros H.
  specialize (H sample_table sample_sets (fst (fst sample_optimized))
                (snd (fst sample_optimized)) (snd sample_optimized)
                eq_refl 0 1).
  assert (columns_identical (fst (fst sample_optimized)) 0 1 = true) as E
    by reflexivity.
  rewrite H in E; [discriminate | lia | vm_compute; split; reflexivity].
Qed.

(** C4, amended: when optimizeTables returns, no two distinct categories
    from index 3 on have identical columns across every state (the search
    from category 3 finds nothing), and a row-merge pass merges nothing
    and leaves the table as it is. *)
Theorem optimizeTables_fixed_point tb sb tb' sb' evs :
  optimizeTables_core tb sb = Some (tb', sb', evs) ->
  (forall i j, 3 <= i -> i < j < getNumCharCategories sb' ->
     columns_identical tb' i j = false)
  /\ findDuplCharClassFrom tb' sb' (mkIntPair 3 0) = None
  /\ removeDuplicateStates tb' = (tb', 0)
  /\ findDuplicateState (fDStates tb') 0 = None.
Proof.
  unfold optimizeTables_core. intros H.
  apply optimize_loop_spec in H. destruct H as (A & B & _).
  split; [| split; [exact A | split; [exact B |]]].
  - intros i j Hi Hj. apply (findDuplCharClassFrom_None _ _ _ A); cbn; lia.
  - apply (removeDuplicateStates_spec _ _ _ B).
Qed.

Lemma optimizeTables_fixed_point_witness :
  findDuplCharClassFrom (fst (fst sample_optimized))
    (snd (fst sample_optimized)) (mkIntPair 3 0) = None
  /\ removeDuplicateStates (fst (fst sample_optimized))
     = (fst (fst sample_optimized), 0).
Proof.
  pose proof (optimizeTables_fixed_point sample_table sample_sets
                (fst (fst sample_optimized)) (snd (fst sample_optimized))
                (snd sample_optimized) eq_refl) as (_ & A & B & _).
  split; [exact A | exact B].
Defined.

(** C5: in every run of optimizeTables each pass starts its search at the
    pair (3, 0) ([pass_trace]); every search starts at category 3 or
    later; every merge folds a category [second] into a category [first]
    with [3 <= first < second]; and every column removed has an index
    above 3.  The categories 0, 1 and 2 are never the removed side. *)
Theorem optimizeTables_spares_reserved tb sb tb' sb' evs :
  optimizeTables_core tb sb = Some (tb', sb', evs) ->
  Forall spares_reserved evs
  /\ pass_trace evs
  /\ (exists found rest, evs = EvFindDupl (mkIntPair 3 0) found :: rest)
  /\ (forall q, In (EvMergeCategories q) evs ->
        second q <> 0 /\ second q <> 1 /\ second q <> 2)
  /\ (forall c, In (EvRemoveColumn c) evs -> c <> 0 /\ c <> 1 /\ c <> 2).
Proof.
  unfold optimizeTables_core. intros H.
  apply optimize_loop_spec in H. destruct H as (_ & _ & P & _).
  pose proof (pass_trace_spares _ P) as F.
  split; [exact F |]. split; [exact P |]. split.
  - destruct P as [c r Hc Hr | c r rest Hc Hr Hrest];
      destruct Hc; cbn [app]; eexists; eexists; reflexivity.
  - rewrite Forall_forall in F. split.
    + intros q Hq. apply list_elem_of_In in Hq. apply F in Hq.
      cbn [spares_reserved] in Hq. lia.
    + intros c Hc. apply list_elem_of_In in Hc. apply F in Hc.
      cbn [spares_reserved] in Hc. lia.
Qed.

Lemma optimizeTables_spares_reserved_witness :
  Forall spares_reserved (snd sample_optimized)
  /\ In (EvMergeCategories (mkIntPair 3 4)) (snd sample_optimized).
Proof.
  pose proof (optimizeTables_spares_reserved sample_table sample_sets
                (fst (fst sample_optimized)) (snd (fst sample_optimized))
                (snd sample_optimized) eq_refl) as (F & _).
  split; [exact F |]. vm_compute. right. left. reflexivity.
Defined.

(** C6: optimizeTables terminates on every table and every category
    builder: the fuel [optimize_fuel] is enough and more fuel gives the
    same result, so the call on a builder never runs for ever.  Each
    category merge lowers the category count by one and each row merged
    lowers the state count by one; neither count goes up. *)
Theorem optimizeTables_terminates tb sb rb :
  (exists tb' sb' evs,
     optimizeTables_core tb sb = Some (tb', sb', evs)
     /\ (forall fuel, (optimize_fuel tb sb <= fuel)%nat ->
           optimize_loop fuel tb sb = Some (tb', sb', evs))
     /\ getNumCharCategories sb' = getNumCharCategories sb - merges evs
     /\ Z.of_nat (length (fDStates tb'))
        = Z.of_nat (length (fDStates tb)) - rows_removed evs
     /\ 0 <= merges evs /\ 0 <= rows_removed evs)
  /\ optimizeTables rb <> Diverges.
Proof.
  split.
  - destruct (optimize_loop_terminates (optimize_fuel tb sb) tb sb)
      as [[[tb' sb'] evs] E]; [unfold optimize_fuel; lia |].
    exists tb', sb', evs. split; [exact E |]. split.
    + intros fuel Hf. apply (optimize_loop_more _ _ _ _ _ Hf E).
    + apply optimize_loop_spec in E.
      destruct E as (_ & _ & _ & M & S & M0 & S0). lia.
  - unfold optimizeTables.
    destruct (fForwardTable rb) as [tb0 |]; cbn [deref obind];
      [| discriminate].
    destruct (fSetBuilder rb) as [sb0 |]; cbn [deref obind];
      [| discriminate].
    unfold optimizeTables_core.
    destruct (optimize_loop_terminates (optimize_fuel tb0 sb0) tb0 sb0)
      as [[[tb' sb'] evs] E]; [unfold optimize_fuel; lia |].
    rewrite E. discriminate.
Qed.

(** ** Determinism *)

Lemma build_garbage_irrelevant be ver X g rb :
  build be ver (with_malloc_garbage g X) rb = build be ver X rb.
Proof.
  unfold build.
  cbn [with_malloc_garbage new_ok parse buildRanges buildTrie
       RBBITableBuilder_ctor buildForwardTable buildSafeReverseTable].
  destruct (U_FAILURE (fStatus rb)); [reflexivity |].
  destruct (fScanner rb); cbn [deref obind]; [| reflexivity].
  destruct (U_FAILURE (fStatus (parse X rb))); [reflexivity |].
  destruct (fSetBuilder (parse X rb)); cbn [deref obind]; [| reflexivity].
  destruct (new_ok X new_fForwardTable); cbn [negb]; [| reflexivity].
  destruct (RBBITableBuilder_ctor X (buildRanges X (parse X rb)))
    as [tb status].
  destruct (optimizeTables _) as [rb1 | |]; cbn [obind];
    [| reflexivity | reflexivity].
  destruct (fForwardTable rb1); cbn [deref obind]; [| reflexivity].
  destruct (fSetBuilder (buildSafeReverseTable X rb1)); cbn [deref obind];
    [| reflexivity].
  rewrite flattenData_garbage_irrelevant. reflexivity.
Qed.

Lemma createRuleBasedBreakIterator_body_garbage_irrelevant
    be ver X g rules parseError status :
  createRuleBasedBreakIterator_body be ver (with_malloc_garbage g X)
    rules parseError status
  = createRuleBasedBreakIterator_body be ver X rules parseError status.
Proof.
  unfold createRuleBasedBreakIterator_body.
  change (RBBIRuleBuilder_ctor (with_malloc_garbage g X) rules parseError
            status)
    with (RBBIRuleBuilder_ctor X rules parseError status).
  destruct (RBBIRuleBuilder_ctor X rules parseError status) as [builder allocs].
  destruct (U_FAILURE (fStatus builder)); [reflexivity |].
  rewrite build_garbage_irrelevant. reflexivity.
Qed.

Lemma createRuleBasedBreakIterator_garbage_irrelevant
    be ver X g rules parseError status :
  createRuleBasedBreakIterator be ver (with_malloc_garbage g X)
    rules parseError status
  = createRuleBasedBreakIterator be ver X rules parseError status.
Proof.
  unfold createRuleBasedBreakIterator.
  rewrite createRuleBasedBreakIterator_body_garbage_irrelevant.
  reflexivity.
Qed.

(** C7: two compiles of the same rule text return the same bytes,
    whatever the allocator left in the block it handed out; in every run
    of optimizeTables each pass is a column phase followed by a row phase,
    and every merge folds the higher category index into the lower one and
    removes the column of the higher one. *)
Theorem compile_deterministic be ver X g rules parseError status rb :
  createRuleBasedBreakIterator be ver (with_malloc_garbage g X)
    rules parseError status
  = createRuleBasedBreakIterator be ver X rules parseError status
  /\ build be ver (with_malloc_garbage g X) rb = build be ver X rb
  /\ (forall tb sb tb' sb' evs,
        optimizeTables_core tb sb = Some (tb', sb', evs) ->
        pass_trace evs
        /\ (forall q, In (EvMergeCategories q) evs -> first q < second q)).
Proof.
  split; [apply createRuleBasedBreakIterator_garbage_irrelevant |].
  split; [apply build_garbage_irrelevant |].
  intros tb sb tb' sb' evs H. unfold optimizeTables_core in H.
  apply optimize_loop_spec in H. destruct H as (_ & _ & P & _).
  split; [exact P |].
  intros q Hq. pose proof (pass_trace_spares _ P) as F.
  rewrite Forall_forall in F. apply list_elem_of_In in Hq. apply F in Hq.
  cbn [spares_reserved] in Hq. lia.
Qed.

Lemma compile_deterministic_witness :
  createRuleBasedBreakIterator false sample_version
    (with_malloc_garbage (fun k => Z.of_nat k mod 256) sample_X)
    [97; 32; 98; 59] None U_ZERO_ERROR
  = createRuleBasedBreakIterator false sample_version sample_X
      [97; 32; 98; 59] None U_ZERO_ERROR
  /\ pass_trace (snd sample_optimized).
Proof.
  pose proof (compile_deterministic false sample_version sample_X
                (fun k => Z.of_nat k mod 256) [97; 32; 98; 59] None
                U_ZERO_ERROR sample_rb) as (H1 & _ & H3).
  split; [exact H1 |].
  apply (H3 sample_table sample_sets (fst (fst sample_optimized))
           (snd (fst sample_optimized)) (snd sample_optimized) eq_refl).
Defined.

(** ** Failure paths *)

Lemma U_FAILURE_alloc : U_FAILURE U_MEMORY_ALLOCATION_ERROR = true.
Proof. reflexivity. Qed.

(** flattenData returns [NULL] on a failure status, and only with a
    failure status. *)
Lemma flattenData_failure be ver X rb :
  U_FAILURE (fStatus rb) = true -> flattenData be ver X rb = Ok (None, rb).
Proof. intros H. unfold flattenData. rewrite H. reflexivity. Qed.

Lemma flattenData_NULL be ver X rb rb' :
  flattenData be ver X rb = Ok (None, rb') ->
  U_FAILURE (fStatus rb') = true.
Proof.
  unfold flattenData. intros H.
  destruct (U_FAILURE (fStatus rb)) eqn:E.
  { injection H as <-. exact E. }
  destruct (fScanner rb); [| discriminate]. cbn [deref obind] in H.
  cbn [set_fStrippedRules fForwardTable fSetBuilder fRuleStatusVals] in H.
  destruct (fForwardTable rb); [| discriminate].
  destruct (fSetBuilder rb); [| discriminate].
  destruct (fRuleStatusVals rb); [| discriminate].
  cbn [deref obind] in H. cbv zeta in H.
  destruct (uprv_malloc X _).
  - destruct (UnicodeString_extract _ _ _ _ _ _). discriminate.
  - injection H as <-. reflexivity.
Qed.

(** One step into the outermost test of a run. *)
Ltac run_step H :=
  match type of H with
  | (if ?x then _ else _) = _ => destruct x eqn:?
  | obind ?m _ = _ => destruct m eqn:?; cbn [obind] in H
  | (let '(_, _) := ?x in _) = _ => destruct x eqn:?
  | match ?x with _ => _ end = _ => destruct x eqn:?
  end;
  try discriminate.

(** build returns a block exactly when it leaves a success status. *)
Lemma build_result be ver X rb data rb' :
  build be ver X rb = Ok (data, rb') ->
  (U_FAILURE (fStatus rb') = true -> data = None)
  /\ (U_FAILURE (fStatus rb') = false -> is_Some data).
Proof.
  unfold build. intros H.
  repeat run_step H.
  all: injection H as <- <-.
  all: split; intros F; try reflexivity; try congruence.
  all: try (cbn [set_fStatus fStatus] in F; discriminate).
  match goal with
  | E : flattenData _ _ _ _ = Ok (?d, _) |- is_Some ?d =>
    destruct d; [eexists; reflexivity |];
    apply flattenData_NULL in E; congruence
  end.
Qed.

Lemma build_failure be ver X rb :
  U_FAILURE (fStatus rb) = true -> build be ver X rb = Ok (None, rb).
Proof. intros H. unfold build. rewrite H. reflexivity. Qed.

(** What the body of the factory is about to return, by the status it
    leaves. *)
Lemma createRuleBasedBreakIterator_body_result
    be ver X rules parseError status res :
  createRuleBasedBreakIterator_body be ver X rules parseError status
  = Ok res ->
  (U_FAILURE (status_out res) = true ->
     retval res = None /\ deleted res = constructed res)
  /\ (U_FAILURE (status_out res) = false ->
        exists blob,
          retval res = Some (mkRBBI (Some blob))
          /\ constructed res = retval res /\ deleted res = None).
Proof.
  unfold createRuleBasedBreakIterator_body. intros H.
  destruct (RBBIRuleBuilder_ctor X rules parseError status) as [builder allocs].
  destruct (U_FAILURE (fStatus builder)) eqn:E0.
  { injection H as <-. cbn. split; [intros _; split; reflexivity | congruence]. }
  destruct (build be ver X builder) as [[data builder'] | |] eqn:EB;
    cbn [obind] in H; try discriminate.
  pose proof (build_result _ _ _ _ _ _ EB) as [B1 B2].
  destruct (U_FAILURE (fStatus builder')) eqn:E1.
  { injection H as <-. cbn. split; [intros _; split; reflexivity | congruence]. }
  destruct (new_ok X new_RuleBasedBreakIterator).
  - cbv zeta in H.
    destruct (U_FAILURE (RuleBasedBreakIterator_ctor X data (fStatus builder')))
      eqn:E2; injection H as <-; cbn.
    + split; [intros _; split; reflexivity | congruence].
    + split; [congruence |]. intros _.
      destruct (B2 eq_refl) as [blob ->]. exists blob. repeat split.
  - injection H as <-. cbn. split; [intros _; split; reflexivity |].
    intros F. discriminate.
Qed.

(** A call of the factory that returns has run its body and torn the
    local builder down without a [NULL] dereference. *)
Lemma createRuleBasedBreakIterator_returns
    be ver X rules parseError status res :
  createRuleBasedBreakIterator be ver X rules parseError status = Ok res ->
  createRuleBasedBreakIterator_body be ver X rules parseError status = Ok res
  /\ exists freed, teardown res = Ok freed.
Proof.
  unfold createRuleBasedBreakIterator. intros H.
  destruct (createRuleBasedBreakIterator_body be ver X rules parseError status)
    as [res0 | |]; cbn [obind] in H; try discriminate.
  destruct (teardown res0) as [freed | |] eqn:T; cbn [obind] in H;
    try discriminate.
  injection H as <-. split; [reflexivity |]. exists freed. exact T.
Qed.

(** The constructor leaves [fUSetNodes] at [NULL] only with a failure
    status. *)
Lemma ctor_unpopulated_is_failure X rules parseErr status :
  fUSetNodes (fst (RBBIRuleBuilder_ctor X rules parseErr status)) = None ->
  U_FAILURE (fStatus (fst (RBBIRuleBuilder_ctor X rules parseErr status)))
  = true.
Proof.
  unfold RBBIRuleBuilder_ctor, ctor_allocate.
  destruct (U_FAILURE (fStatus (ctor_init rules parseErr status))) eqn:E0.
  { cbn [fst]. intros _. exact E0. }
  cbv zeta.
  match goal with
  | |- context [if U_FAILURE (fStatus ?r) then _ else _] => set (rb4 := r)
  end.
  destruct (U_FAILURE (fStatus rb4)) eqn:E1.
  { cbn [fst]. intros _. exact E1. }
  destruct (bool_decide (is_Some (fSetBuilder rb4))); cbn [negb orb];
    [| intros _; reflexivity].
  destruct (bool_decide (is_Some (fScanner rb4))); cbn [negb orb];
    [| intros _; reflexivity].
  destruct (bool_decide (is_Some (fUSetNodes rb4))) eqn:D3; cbn [negb orb];
    [| intros _; reflexivity].
  apply bool_decide_eq_true in D3. destruct D3 as [nodes D3].
  destruct (bool_decide (is_Some (fRuleStatusVals rb4))); cbn [negb orb];
    [| intros _; reflexivity].
  cbn [fst]. intros H. congruence.
Qed.

(** C8, at a failing input: when the constructor leaves [fUSetNodes] at
    [NULL] (the status was a failure on entry, or [new UVector] returned
    [NULL]), the body of the factory reaches [return NULL] at line 226
    with a failure status, and the destructor of the local builder then
    calls [fUSetNodes->elementAt(0)] through the [NULL] pointer: the call
    ends in that dereference and returns nothing. *)
Theorem factory_crashes_when_unpopulated be ver X rules parseErr status :
  fUSetNodes (fst (RBBIRuleBuilder_ctor X rules parseErr status)) = None ->
  createRuleBasedBreakIterator be ver X rules parseErr status
  = NullDereference
  /\ exists res,
       createRuleBasedBreakIterator_body be ver X rules parseErr status
       = Ok res
       /\ retval res = None
       /\ U_FAILURE (status_out res) = true
       /\ teardown res = NullDereference.
Proof.
  intros H.
  pose proof (ctor_unpopulated_is_failure _ _ _ _ H) as F.
  unfold createRuleBasedBreakIterator, createRuleBasedBreakIterator_body.
  destruct (RBBIRuleBuilder_ctor X rules parseErr status) as [builder allocs].
  cbn [fst] in H, F. rewrite F.
  assert (RBBIRuleBuilder_dtor builder = NullDereference) as D
    by (unfold RBBIRuleBuilder_dtor; rewrite H; reflexivity).
  rewrite D. cbn [obind teardown].
  split; [reflexivity |].
  eexists. split; [reflexivity |]. cbn [retval status_out teardown].
  split; [reflexivity |]. split; [exact F | reflexivity].
Qed.

Lemma factory_crashes_when_unpopulated_witness :
  createRuleBasedBreakIterator false sample_version sample_X
    [97; 32; 98; 59] None U_MEMORY_ALLOCATION_ERROR
  = NullDereference
  /\ createRuleBasedBreakIterator false sample_version sample_X_no_vector
       [97; 32; 98; 59] None U_ZERO_ERROR
     = NullDereference.
Proof.
  split.
  - apply (factory_crashes_when_unpopulated false sample_version sample_X
             [97; 32; 98; 59] None U_MEMORY_ALLOCATION_ERROR eq_refl).
  - apply (factory_crashes_when_unpopulated false sample_version
             sample_X_no_vector [97; 32; 98; 59] None U_ZERO_ERROR eq_refl).
Defined.

(** C9, at a failing input: with the status already at
    [U_MEMORY_ALLOCATION_ERROR], the constructor evaluates no [new] and
    leaves every pointer [NULL]; the destructor then calls
    [fUSetNodes->elementAt(0)] through the [NULL] pointer, and the factory,
    which destroys its local builder on the early return of line 226,
    does so too: its body reaches [return NULL] and the call ends in the
    dereference. *)
Theorem teardown_of_unpopulated_builder be ver X rules parseErr :
  snd (RBBIRuleBuilder_ctor X rules parseErr U_MEMORY_ALLOCATION_ERROR) = []
  /\ fUSetNodes
       (fst (RBBIRuleBuilder_ctor X rules parseErr U_MEMORY_ALLOCATION_ERROR))
     = None
  /\ fRuleStatusVals
       (fst (RBBIRuleBuilder_ctor X rules parseErr U_MEMORY_ALLOCATION_ERROR))
     = None
  /\ fScanner
       (fst (RBBIRuleBuilder_ctor X rules parseErr U_MEMORY_ALLOCATION_ERROR))
     = None
  /\ fSetBuilder
       (fst (RBBIRuleBuilder_ctor X rules parseErr U_MEMORY_ALLOCATION_ERROR))
     = None
  /\ RBBIRuleBuilder_dtor
       (fst (RBBIRuleBuilder_ctor X rules parseErr U_MEMORY_ALLOCATION_ERROR))
     = NullDereference
  /\ createRuleBasedBreakIterator be ver X rules parseErr
       U_MEMORY_ALLOCATION_ERROR
     = NullDereference
  /\ exists res,
       createRuleBasedBreakIterator_body be ver X rules parseErr
         U_MEMORY_ALLOCATION_ERROR = Ok res
       /\ retval res = None
       /\ teardown res = NullDereference.
Proof.
  unfold createRuleBasedBreakIterator, createRuleBasedBreakIterator_body,
    RBBIRuleBuilder_ctor, ctor_allocate, ctor_init.
  destruct parseErr as [pe |]; cbn.
  - repeat split. eexists. repeat split.
  - repeat split. eexists. repeat split.
Qed.

(** C10: the constructor clears a parse-error descriptor that is not
    [NULL] before it tests the status: the descriptor is zero at the test,
    and it is zero after the constructor and when the body of the factory
    reaches its [return], the status untouched, when the status was a
    failure on entry. *)
Theorem ctor_clears_parse_error be ver X rules pe status :
  fParseError (ctor_init rules (Some pe) status) = Some UParseError_zero
  /\ fStatus (ctor_init rules (Some pe) status) = status
  /\ (U_FAILURE status = true ->
        fParseError (fst (RBBIRuleBuilder_ctor X rules (Some pe) status))
        = Some UParseError_zero
        /\ exists res,
             createRuleBasedBreakIterator_body be ver X rules (Some pe)
               status
             = Ok res
             /\ parseError_out res = Some UParseError_zero
             /\ status_out res = status).
Proof.
  split; [reflexivity |]. split; [reflexivity |].
  intros F.
  assert (RBBIRuleBuilder_ctor X rules (Some pe) status
          = (ctor_init rules (Some pe) status, [])) as E.
  { unfold RBBIRuleBuilder_ctor, ctor_allocate.
    change (fStatus (ctor_init rules (Some pe) status)) with status.
    rewrite F. reflexivity. }
  unfold createRuleBasedBreakIterator_body. rewrite E.
  change (fStatus (ctor_init rules (Some pe) status)) with status.
  rewrite F. split; [reflexivity |].
  eexists. split; [reflexivity |]. split; reflexivity.
Qed.

Lemma ctor_clears_parse_error_witness :
  fParseError
    (fst (RBBIRuleBuilder_ctor sample_X [97; 32; 98; 59]
            (Some (mkUParseError 12 34 [120] [121]))
            U_MEMORY_ALLOCATION_ERROR))
  = Some UParseError_zero.
Proof.
  pose proof (ctor_clears_parse_error false sample_version sample_X
                [97; 32; 98; 59] (mkUParseError 12 34 [120] [121])
                U_MEMORY_ALLOCATION_ERROR) as (_ & _ & H).
  destruct (H eq_refl) as [H1 _]. exact H1.
Defined.

(** * Further properties of the code *)

(** ** [align8] *)

(** [align8] on a size it can round: the result is the least multiple
    of 8 at or above the argument, it rounds again to itself, and the
    function is monotone. *)
Theorem align8_rounds_up i j :
  0 <= i -> i <= j -> j <= Int32.max_signed - 7 ->
  align8 i mod 8 = 0
  /\ i <= align8 i < i + 8
  /\ (forall m, m mod 8 = 0 -> i <= m -> align8 i <= m)
  /\ align8 (align8 i) = align8 i
  /\ align8 i <= align8 j.
Proof.
  intros Hi Hij Hj.
  assert (0 <= i <= Int32.max_signed - 7) as Ri by lia.
  assert (0 <= j <= Int32.max_signed - 7) as Rj by lia.
  pose proof (align8_bounds i Ri) as Bi.
  pose proof (align8_mod8 i Ri) as Mi.
  split; [exact Mi |]. split; [exact Bi |]. split; [| split].
  - intros m Hm Him. rewrite align8_spec by exact Ri.
    Z.div_mod_to_equations. lia.
  - apply align8_aligned; [| exact Mi].
    rewrite align8_spec by exact Ri. unfold Int32.max_signed in *.
    Z.div_mod_to_equations. lia.
  - rewrite !align8_spec by assumption. Z.div_mod_to_equations. lia.
Qed.

Lemma align8_rounds_up_witness :
  align8 15 mod 8 = 0 /\ align8 (align8 15) = align8 15
  /\ align8 15 <= align8 20.
Proof.
  pose proof (align8_rounds_up 15 20 ltac:(lia) ltac:(lia)
                ltac:(unfold Int32.max_signed; lia))
    as (H1 & _ & _ & H4 & H5).
  split; [exact H1 | split; [exact H4 | exact H5]].
Defined.

(** ** What flattenData does to the builder *)

Lemma flattenData_builder_fields be ver X rb r rb' :
  flattenData be ver X rb = Ok (r, rb') ->
  fForwardTable rb' = fForwardTable rb
  /\ fRuleStatusVals rb' = fRuleStatusVals rb
  /\ fScanner rb' = fScanner rb
  /\ fSetBuilder rb' = fSetBuilder rb
  /\ (U_FAILURE (fStatus rb) = false ->
        fStrippedRules rb' = stripRules X (fStrippedRules rb)).
Proof.
  unfold flattenData. intros H.
  destruct (U_FAILURE (fStatus rb)) eqn:E.
  { injection H as <- <-. repeat split; intros; congruence. }
  destruct (fScanner rb) eqn:?; [| discriminate]. cbn [deref obind] in H.
  cbn [set_fStrippedRules fForwardTable fSetBuilder fRuleStatusVals] in H.
  destruct (fForwardTable rb) eqn:?; [| discriminate].
  destruct (fSetBuilder rb) eqn:?; [| discriminate].
  destruct (fRuleStatusVals rb) eqn:?; [| discriminate].
  cbn [deref obind] in H. cbv zeta in H.
  destruct (uprv_malloc X _).
  - destruct (UnicodeString_extract _ _ _ _ _ _) as [data status].
    injection H as <- <-. cbn. repeat split; intros; congruence.
  - injection H as <- <-. cbn. repeat split; intros; congruence.
Qed.

(** flattenData changes nothing of the builder but the status and the
    stripped rules: the tables, the trees, the vectors, the scanner, the
    set builder, the original rules and the parse-error descriptor are as
    before, whatever it returns.  On a failure status it changes nothing
    at all and returns [NULL]. *)
Theorem flattenData_keeps_the_builder be ver X rb r rb' :
  flattenData be ver X rb = Ok (r, rb') ->
  fParseError rb' = fParseError rb
  /\ fRules rb' = fRules rb
  /\ fForwardTree rb' = fForwardTree rb
  /\ fReverseTree rb' = fReverseTree rb
  /\ fSafeFwdTree rb' = fSafeFwdTree rb
  /\ fSafeRevTree rb' = fSafeRevTree rb
  /\ fForwardTable rb' = fForwardTable rb
  /\ fRuleStatusVals rb' = fRuleStatusVals rb
  /\ fUSetNodes rb' = fUSetNodes rb
  /\ fScanner rb' = fScanner rb
  /\ fSetBuilder rb' = fSetBuilder rb
  /\ (U_FAILURE (fStatus rb) = true -> r = None /\ rb' = rb)
  /\ (U_FAILURE (fStatus rb) = false ->
        fStrippedRules rb' = stripRules X (fStrippedRules rb)).
Proof.
  unfold flattenData. intros H.
  destruct (U_FAILURE (fStatus rb)) eqn:E.
  { injection H as <- <-. repeat split; intros; try split; congruence. }
  destruct (fScanner rb) eqn:?; [| discriminate]. cbn [deref obind] in H.
  cbn [set_fStrippedRules fForwardTable fSetBuilder fRuleStatusVals] in H.
  destruct (fForwardTable rb) eqn:?; [| discriminate].
  destruct (fSetBuilder rb) eqn:?; [| discriminate].
  destruct (fRuleStatusVals rb) eqn:?; [| discriminate].
  cbn [deref obind] in H. cbv zeta in H.
  destruct (uprv_malloc X _).
  - destruct (UnicodeString_extract _ _ _ _ _ _) as [data status].
    injection H as <- <-. cbn. repeat split; intros; try split; congruence.
  - injection H as <- <-. cbn. repeat split; intros; try split; congruence.
Qed.

Lemma flattenData_keeps_the_builder_witness :
  fForwardTable (set_fStatus 0 (set_fStrippedRules [97; 98; 59] sample_rb))
  = fForwardTable sample_rb
  /\ fSetBuilder (set_fStatus 0 (set_fStrippedRules [97; 98; 59] sample_rb))
     = fSetBuilder sample_rb.
Proof.
  pose proof (flattenData_keeps_the_builder false sample_version sample_X
                sample_rb (Some sample_blob)
                (set_fStatus 0 (set_fStrippedRules [97; 98; 59] sample_rb))
                eq_refl)
    as (_ & _ & _ & _ & _ & _ & H1 & _ & _ & _ & H2 & _).
  split; [exact H1 | exact H2].
Defined.

(** When flattenData returns [NULL] although the status was a success on
    entry, the allocation of the block failed: the status it leaves is
    [U_MEMORY_ALLOCATION_ERROR], and the rules have been stripped all the
    same. *)
Theorem flattenData_NULL_is_allocation_failure be ver X rb rb' :
  flattenData be ver X rb = Ok (None, rb') ->
  U_FAILURE (fStatus rb) = false ->
  fStatus rb' = U_MEMORY_ALLOCATION_ERROR
  /\ fStrippedRules rb' = stripRules X (fStrippedRules rb).
Proof.
  unfold flattenData. intros H E. rewrite E in H.
  destruct (fScanner rb); [| discriminate]. cbn [deref obind] in H.
  cbn [set_fStrippedRules fForwardTable fSetBuilder fRuleStatusVals] in H.
  destruct (fForwardTable rb); [| discriminate].
  destruct (fSetBuilder rb); [| discriminate].
  destruct (fRuleStatusVals rb); [| discriminate].
  cbn [deref obind] in H. cbv zeta in H.
  destruct (uprv_malloc X _).
  - destruct (UnicodeString_extract _ _ _ _ _ _). discriminate.
  - injection H as <-. split; reflexivity.
Qed.

Lemma flattenData_NULL_is_allocation_failure_witness :
  flattenData false sample_version sample_X_no_memory sample_rb
  = Ok (None,
        set_fStatus U_MEMORY_ALLOCATION_ERROR
          (set_fStrippedRules [97; 98; 59] sample_rb))
  /\ fStatus (set_fStatus U_MEMORY_ALLOCATION_ERROR
                (set_fStrippedRules [97; 98; 59] sample_rb))
     = U_MEMORY_ALLOCATION_ERROR.
Proof.
  assert (flattenData false sample_version sample_X_no_memory sample_rb
          = Ok (None,
                set_fStatus U_MEMORY_ALLOCATION_ERROR
                  (set_fStrippedRules [97; 98; 59] sample_rb))) as E
    by (vm_compute; reflexivity).
  split; [exact E |].
  apply (flattenData_NULL_is_allocation_failure false sample_version
           sample_X_no_memory sample_rb _ E eq_refl).
Defined.

(** ** What the block holds *)

Lemma slice_lookup (m bs : list byte) (o : nat) :
  (forall k, (k < length bs)%nat -> m !! (o + k)%nat = bs !! k) ->
  take (length bs) (drop o m) = bs.
Proof.
  intros H. apply list_eq. intros k.
  destruct (decide (k < length bs)%nat) as [Hk | Hk].
  - rewrite lookup_take_lt by exact Hk. rewrite lookup_drop. apply H. exact Hk.
  - rewrite lookup_take_ge by lia. symmetry. apply lookup_ge_None_2. lia.
Qed.

(** A lookup goes through the later stores. *)
Ltac lookup_through :=
  repeat first
    [ rewrite store32_lookup_out by layout_side
    | rewrite write_bytes_lookup_out by layout_side ].

Section ImageContents.

Variable be : bool.
Variable ver : list byte.
Variable X : Collaborators.
Variable tb : RBBITableBuilder.
Variable sb : RBBISetBuilder.
Variable vals : list Z.
Variable stripped : UnicodeString.
Variable block : memory.
Hypothesis Hblock : length block = Z.to_nat (offEnd X tb sb vals stripped).

Let image := flat_image be ver X tb sb vals stripped block.

Ltac layout_facts :=
  pose proof (offsets_ordered X tb sb vals stripped) as (? & ? & ? & ? & ? & ?);
  pose proof (lengths_nonneg X tb sb vals stripped) as (? & ? & ? & ? & ?);
  unfold image, flat_image; cbv zeta;
  rewrite ?u16_bytes_nul;
  unfold lenRules, lenStatus, lenTrie, getTrieSize, lenForward, lenReverse,
    getTableSize, getSafeTableSize, serializeTrie in *.

Ltac inner_length :=
  repeat (rewrite ?length_write_bytes; rewrite ?length_store32);
  rewrite length_uprv_memset, Hblock.

Lemma image_fMagic : load32 be image Header.fMagic = 0xb1a0.
Proof.
  layout_facts. load_through. rewrite load32_store32; [reflexivity |].
  inner_length. header_offsets. lia.
Qed.

Lemma image_fCatCount :
  load32 be image Header.fCatCount
  = Int32.to_uint32 (getNumCharCategories sb).
Proof.
  layout_facts. load_through. rewrite load32_store32; [reflexivity |].
  inner_length. header_offsets. lia.
Qed.

Lemma image_fFormatVersion (k : nat) :
  (k < 4)%nat -> image !! (4 + k)%nat = Some (nth k ver 0).
Proof.
  intros Hk. layout_facts. lookup_through.
  rewrite write_bytes_lookup_in.
  - header_offsets.
    replace (4 + k - Z.to_nat 4)%nat with k by lia.
    assert (k = 0 \/ k = 1 \/ k = 2 \/ k = 3)%nat
      as [-> | [-> | [-> | ->]]] by lia; reflexivity.
  - rewrite length_map, length_seq. header_offsets. lia.
  - inner_length. lia.
Qed.

Lemma image_fReserved (j : nat) :
  (56 <= j < 80)%nat -> image !! j = Some 0.
Proof.
  intros Hj. layout_facts. lookup_through.
  rewrite write_bytes_lookup_in.
  - apply lookup_replicate_2. header_offsets. lia.
  - rewrite length_replicate. header_offsets. lia.
  - inner_length. lia.
Qed.

Lemma image_forward (k : nat) :
  (k < length (exportTable X tb (getNumCharCategories sb)))%nat ->
  image !! (Z.to_nat offForward + k)%nat
  = exportTable X tb (getNumCharCategories sb) !! k.
Proof.
  intros Hk. layout_facts. lookup_through.
  rewrite write_bytes_lookup_in.
  - f_equal. lia.
  - lia.
  - inner_length. lia.
Qed.

Lemma image_reverse (k : nat) :
  (k < length (exportSafeTable X tb (getNumCharCategories sb)))%nat ->
  image !! (Z.to_nat (offReverse X tb sb) + k)%nat
  = exportSafeTable X tb (getNumCharCategories sb) !! k.
Proof.
  intros Hk. layout_facts. lookup_through.
  rewrite write_bytes_lookup_in.
  - f_equal. lia.
  - lia.
  - inner_length. lia.
Qed.

Lemma image_trie (k : nat) :
  (k < length (fTrie sb))%nat ->
  image !! (Z.to_nat (offTrie X tb sb) + k)%nat = fTrie sb !! k.
Proof.
  intros Hk. layout_facts. lookup_through.
  rewrite write_bytes_lookup_in.
  - f_equal. lia.
  - lia.
  - inner_length. lia.
Qed.

Lemma image_status (k : nat) :
  (k < length (i32_bytes be vals))%nat ->
  image !! (Z.to_nat (offStatus X tb sb) + k)%nat = i32_bytes be vals !! k.
Proof.
  rewrite length_i32_bytes.
  intros Hk. layout_facts. lookup_through.
  rewrite write_bytes_lookup_in.
  - f_equal. lia.
  - rewrite length_i32_bytes. lia.
  - inner_length. lia.
Qed.

Lemma image_rules (k : nat) :
  (k < length (u16_bytes be stripped))%nat ->
  image !! (Z.to_nat (offRules X tb sb vals) + k)%nat
  = u16_bytes be stripped !! k.
Proof.
  rewrite length_u16_bytes.
  intros Hk. layout_facts. lookup_through.
  rewrite write_bytes_lookup_in.
  - f_equal. lia.
  - rewrite length_u16_bytes. lia.
  - inner_length. lia.
Qed.

Lemma image_terminator (k : nat) :
  (k < 2)%nat ->
  image !! (Z.to_nat (offRules X tb sb vals + 2 * Z.of_nat (length stripped))
            + k)%nat
  = Some 0.
Proof.
  intros Hk. layout_facts.
  rewrite write_bytes_lookup_in.
  - assert (k = 0 \/ k = 1)%nat as [-> | ->] by lia.
    + replace (_ + 0 - _)%nat with 0%nat by lia. reflexivity.
    + replace (_ + 1 - _)%nat with 1%nat by lia. reflexivity.
  - cbn [length]. lia.
  - inner_length. lia.
Qed.

End ImageContents.

(** The block of a successful run, as [flat_image] of a block of the
    right size. *)
Lemma flattenData_image be ver X rb blob rb' tb sb vals :
  flattenData be ver X rb = Ok (Some blob, rb') ->
  fForwardTable rb = Some tb ->
  fSetBuilder rb = Some sb ->
  fRuleStatusVals rb = Some vals ->
  flatten_fits X tb sb vals (stripRules X (fStrippedRules rb)) = true ->
  exists block,
    blob = flat_image be ver X tb sb vals (stripRules X (fStrippedRules rb))
             block
    /\ length block
       = Z.to_nat (offEnd X tb sb vals (stripRules X (fStrippedRules rb))).
Proof.
  intros Hrun Htb Hsb Hvals Hfits.
  destruct (flattenData_Some_inv _ _ _ _ _ _ _ _ _ Hrun Htb Hsb Hvals Hfits)
    as (-> & _ & _).
  eexists. split; [reflexivity |].
  rewrite length_map, length_seq. reflexivity.
Qed.

(** The header starts with the magic number [0xb1a0] and the four bytes
    of [RBBI_DATA_FORMAT_VERSION], in order; it holds the category count
    of the set builder, and its six reserved words are zero. *)
Theorem flattenData_header_identity be ver X rb blob rb' tb sb vals :
  flattenData be ver X rb = Ok (Some blob, rb') ->
  fForwardTable rb = Some tb ->
  fSetBuilder rb = Some sb ->
  fRuleStatusVals rb = Some vals ->
  flatten_fits X tb sb vals (stripRules X (fStrippedRules rb)) = true ->
  load32 be blob Header.fMagic = 0xb1a0
  /\ take 4 (drop 4 blob) = [nth 0 ver 0; nth 1 ver 0; nth 2 ver 0; nth 3 ver 0]
  /\ load32 be blob Header.fCatCount
     = Int32.to_uint32 (getNumCharCategories sb)
  /\ take 24 (drop 56 blob) = replicate 24 0.
Proof.
  intros Hrun Htb Hsb Hvals Hfits.
  destruct (flattenData_image _ _ _ _ _ _ _ _ _ Hrun Htb Hsb Hvals Hfits)
    as (block & -> & Hblock).
  split; [apply image_fMagic; exact Hblock |].
  split; [| split; [apply image_fCatCount; exact Hblock |]].
  - apply (slice_lookup _ [_; _; _; _] 4). cbn [length]. intros k Hk.
    rewrite image_fFormatVersion by assumption.
    assert (k = 0 \/ k = 1 \/ k = 2 \/ k = 3)%nat
      as [-> | [-> | [-> | ->]]] by lia; reflexivity.
  - change 24%nat with (length (replicate 24 (0 : byte))) at 1.
    apply slice_lookup. rewrite length_replicate. intros k Hk.
    rewrite image_fReserved by (try exact Hblock; lia).
    symmetry. apply lookup_replicate_2. exact Hk.
Qed.

Lemma flattenData_header_identity_witness :
  load32 false sample_blob Header.fMagic = 0xb1a0
  /\ take 4 (drop 4 sample_blob) = [6; 0; 0; 0]
  /\ load32 false sample_blob Header.fCatCount = 5.
Proof.
  pose proof (flattenData_header_identity false sample_version
                sample_X sample_rb sample_blob
                (set_fStatus 0 (set_fStrippedRules [97; 98; 59] sample_rb))
                sample_table sample_sets [1; 0; 2; 1; 2]
                eq_refl eq_refl eq_refl eq_refl eq_refl)
    as (H1 & H2 & H3 & _).
  split; [exact H1 | split; [exact H2 | exact H3]].
Defined.

(** The sections follow one another without a gap: the forward table
    starts where the aligned header ends, at byte 80; each table ends where
    the next section starts; the trie, the status table and the rule source
    are followed by the next section, or by the end of the block, at the
    next multiple of 8, the rule source with room for its terminator.  The
    total length is a multiple of 8 and is 88 at least. *)
Theorem flattenData_layout_chain be ver X rb blob rb' tb sb vals :
  flattenData be ver X rb = Ok (Some blob, rb') ->
  fForwardTable rb = Some tb ->
  fSetBuilder rb = Some sb ->
  fRuleStatusVals rb = Some vals ->
  flatten_fits X tb sb vals (stripRules X (fStrippedRules rb)) = true ->
  load32 be blob Header.fFTable = align8 Header.sizeof
  /\ load32 be blob Header.fRTable
     = load32 be blob Header.fFTable + load32 be blob Header.fFTableLen
  /\ load32 be blob Header.fTrie
     = load32 be blob Header.fRTable + load32 be blob Header.fRTableLen
  /\ load32 be blob Header.fStatusTable
     = load32 be blob Header.fTrie + align8 (load32 be blob Header.fTrieLen)
  /\ load32 be blob Header.fRuleSource
     = load32 be blob Header.fStatusTable
       + load32 be blob Header.fStatusTableLen
  /\ load32 be blob Header.fLength
     = load32 be blob Header.fRuleSource
       + align8 (load32 be blob Header.fRuleSourceLen + 2)
  /\ load32 be blob Header.fLength mod 8 = 0
  /\ 88 <= load32 be blob Header.fLength.
Proof.
  intros Hrun Htb Hsb Hvals Hfits.
  destruct (flattenData_image _ _ _ _ _ _ _ _ _ Hrun Htb Hsb Hvals Hfits)
    as (block & -> & Hblock).
  set (stripped := stripRules X (fStrippedRules rb)) in *.
  pose proof (flatten_fits_facts _ _ _ _ _ Hfits)
    as (EaF & EaR & EaT & EaS & EaU & HE).
  pose proof (lengths_nonneg X tb sb vals stripped) as (HF & HR & HT & HS & HU).
  pose proof (offsets_ordered X tb sb vals stripped)
    as (H80 & HoR & HoT & HoS & HoU & HoE).
  pose proof (up8_bounds (lenForward X tb sb)) as BF.
  pose proof (up8_bounds (lenReverse X tb sb)) as BR.
  pose proof (up8_bounds (lenTrie sb)) as BT.
  pose proof (up8_bounds (lenStatus vals)) as BS.
  pose proof (up8_bounds (lenRules stripped + 2)) as BU.
  unfold Int32.max_signed in HE.
  rewrite image_fLength, image_fFTable, image_fFTableLen, image_fRTable,
    image_fRTableLen, image_fTrie, image_fTrieLen, image_fStatusTable,
    image_fStatusTableLen, image_fRuleSource, image_fRuleSourceLen
    by exact Hblock.
  rewrite !to_uint32_small by (unfold Int32.modulus; lia).
  fold (lenTrie sb) in EaT. rewrite EaT.
  replace (2 * (Z.of_nat (length stripped) + 1))
    with (lenRules stripped + 2) in EaU by (unfold lenRules; lia).
  rewrite EaU.
  change (align8 Header.sizeof) with 80.
  pose proof (up8_mod8 (lenForward X tb sb)) as MF.
  pose proof (up8_mod8 (lenReverse X tb sb)) as MR.
  pose proof (up8_mod8 (lenTrie sb)) as MT.
  pose proof (up8_mod8 (lenStatus vals)) as MS.
  pose proof (up8_mod8 (lenRules stripped + 2)) as MU.
  unfold offEnd, offRules, offStatus, offTrie, offReverse, offForward,
    Header.sizeof in *.
  repeat split; try lia; try reflexivity; Z.div_mod_to_equations; lia.
Qed.

Lemma flattenData_layout_chain_witness :
  load32 false sample_blob Header.fFTable = 80
  /\ load32 false sample_blob Header.fLength mod 8 = 0
  /\ 88 <= load32 false sample_blob Header.fLength.
Proof.
  pose proof (flattenData_layout_chain false sample_version
                sample_X sample_rb sample_blob
                (set_fStatus 0 (set_fStrippedRules [97; 98; 59] sample_rb))
                sample_table sample_sets [1; 0; 2; 1; 2]
                eq_refl eq_refl eq_refl eq_refl eq_refl)
    as (H1 & _ & _ & _ & _ & _ & H7 & H8).
  split; [exact H1 | split; [exact H7 | exact H8]].
Defined.

(** Each section, read at the offset the header gives, holds what was
    exported into it, whole and in order: the bytes of the forward table,
    of the safe table and of the trie, the status values as 32-bit words in
    the order of the list, and the code units of the stripped rules,
    followed by a zero code unit.  No later store overwrites an earlier
    section. *)
Theorem flattenData_sections_hold_the_data
    be ver X rb blob rb' tb sb vals :
  flattenData be ver X rb = Ok (Some blob, rb') ->
  fForwardTable rb = Some tb ->
  fSetBuilder rb = Some sb ->
  fRuleStatusVals rb = Some vals ->
  flatten_fits X tb sb vals (stripRules X (fStrippedRules rb)) = true ->
  take (length (exportTable X tb (getNumCharCategories sb)))
    (drop (Z.to_nat (load32 be blob Header.fFTable)) blob)
  = exportTable X tb (getNumCharCategories sb)
  /\ take (length (exportSafeTable X tb (getNumCharCategories sb)))
       (drop (Z.to_nat (load32 be blob Header.fRTable)) blob)
     = exportSafeTable X tb (getNumCharCategories sb)
  /\ take (length (serializeTrie sb))
       (drop (Z.to_nat (load32 be blob Header.fTrie)) blob)
     = serializeTrie sb
  /\ take (4 * length vals)
       (drop (Z.to_nat (load32 be blob Header.fStatusTable)) blob)
     = i32_bytes be vals
  /\ take (2 * length (fStrippedRules rb'))
       (drop (Z.to_nat (load32 be blob Header.fRuleSource)) blob)
     = u16_bytes be (fStrippedRules rb')
  /\ take 2
       (drop (Z.to_nat (load32 be blob Header.fRuleSource
                        + load32 be blob Header.fRuleSourceLen)) blob)
     = [0; 0].
Proof.
  intros Hrun Htb Hsb Hvals Hfits.
  pose proof (flattenData_builder_fields _ _ _ _ _ _ Hrun) as K.
  destruct K as (_ & _ & _ & _ & K).
  destruct (flattenData_Some_inv _ _ _ _ _ _ _ _ _ Hrun Htb Hsb Hvals Hfits)
    as (_ & _ & F).
  rewrite (K F). clear K.
  destruct (flattenData_image _ _ _ _ _ _ _ _ _ Hrun Htb Hsb Hvals Hfits)
    as (block & -> & Hblock).
  set (stripped := stripRules X (fStrippedRules rb)) in *.
  pose proof (flatten_fits_facts _ _ _ _ _ Hfits)
    as (_ & _ & _ & _ & _ & HE).
  pose proof (lengths_nonneg X tb sb vals stripped) as (HF & HR & HT & HS & HU).
  pose proof (offsets_ordered X tb sb vals stripped)
    as (H80 & HoR & HoT & HoS & HoU & HoE).
  unfold Int32.max_signed in HE.
  rewrite image_fFTable, image_fRTable, image_fTrie, image_fStatusTable,
    image_fRuleSource, image_fRuleSourceLen by exact Hblock.
  rewrite !to_uint32_small by (unfold Int32.modulus; lia).
  split; [| split; [| split; [| split; [| split]]]].
  - apply slice_lookup. intros k Hk. apply image_forward; assumption.
  - apply slice_lookup. intros k Hk. apply image_reverse; assumption.
  - apply slice_lookup. intros k Hk. apply image_trie; assumption.
  - rewrite <- (length_i32_bytes be vals).
    apply slice_lookup. intros k Hk. apply image_status; assumption.
  - rewrite <- (length_u16_bytes be stripped).
    apply slice_lookup. intros k Hk. apply image_rules; assumption.
  - apply (slice_lookup _ [0; 0]). cbn [length]. intros k Hk.
    unfold lenRules. rewrite image_terminator by assumption.
    assert (k = 0 \/ k = 1)%nat as [-> | ->] by lia; reflexivity.
Qed.

Lemma flattenData_sections_hold_the_data_witness :
  take 5 (drop (Z.to_nat (load32 false sample_blob Header.fTrie)) sample_blob)
  = [9; 8; 7; 6; 5]
  /\ take 6
       (drop (Z.to_nat (load32 false sample_blob Header.fRuleSource))
          sample_blob)
     = [97; 0; 98; 0; 59; 0].
Proof.
  pose proof (flattenData_sections_hold_the_data false sample_version
                sample_X sample_rb sample_blob
                (set_fStatus 0 (set_fStrippedRules [97; 98; 59] sample_rb))
                sample_table sample_sets [1; 0; 2; 1; 2]
                eq_refl eq_refl eq_refl eq_refl eq_refl)
    as (_ & _ & H3 & _ & H5 & _).
  split; [exact H3 | exact H5].
Defined.

(** ** Reading the status table back *)

Lemma to_int32_to_uint32 v :
  - 2147483648 <= v <= Int32.max_signed ->
  Int32.to_int32 (Int32.to_uint32 v) = v.
Proof.
  unfold Int32.to_int32, Int32.to_uint32, Int32.max_signed, Int32.modulus.
  intros H. Z.div_mod_to_equations. lia.
Qed.

Lemma i32_bytes_lookup be (vs : list Z) (i : nat) v (k : nat) :
  vs !! i = Some v -> (k < 4)%nat ->
  i32_bytes be vs !! (4 * i + k)%nat
  = int_bytes be 4 (Int32.to_uint32 v) !! k.
Proof.
  revert i. induction vs as [| w vs IH]; intros i Hv Hk; [discriminate |].
  unfold i32_bytes in *. cbn [flat_map].
  destruct i as [| i].
  - injection Hv as ->. apply lookup_app_l. rewrite length_int_bytes. lia.
  - cbn [lookup list_lookup] in Hv.
    rewrite lookup_app_r by (rewrite length_int_bytes; lia).
    rewrite length_int_bytes.
    replace (4 * S i + k - 4)%nat with (4 * i + k)%nat by lia.
    apply IH; assumption.
Qed.

(** The status table decodes to the status list: the 32-bit word at index
    [i] of the section, read as an [int32_t], is the value at index [i] of
    the list. *)
Theorem flattenData_status_table_round_trip
    be ver X rb blob rb' tb sb vals (i : nat) v :
  flattenData be ver X rb = Ok (Some blob, rb') ->
  fForwardTable rb = Some tb ->
  fSetBuilder rb = Some sb ->
  fRuleStatusVals rb = Some vals ->
  flatten_fits X tb sb vals (stripRules X (fStrippedRules rb)) = true ->
  vals !! i = Some v ->
  - 2147483648 <= v <= Int32.max_signed ->
  Int32.to_int32
    (load32 be blob (load32 be blob Header.fStatusTable + 4 * Z.of_nat i))
  = v.
Proof.
  intros Hrun Htb Hsb Hvals Hfits Hv Hrange.
  destruct (flattenData_image _ _ _ _ _ _ _ _ _ Hrun Htb Hsb Hvals Hfits)
    as (block & -> & Hblock).
  set (stripped := stripRules X (fStrippedRules rb)) in *.
  pose proof (flatten_fits_facts _ _ _ _ _ Hfits)
    as (_ & _ & _ & _ & _ & HE).
  pose proof (lengths_nonneg X tb sb vals stripped) as (HF & HR & HT & HS & HU).
  pose proof (offsets_ordered X tb sb vals stripped)
    as (H80 & HoR & HoT & HoS & HoU & HoE).
  unfold Int32.max_signed in HE.
  rewrite image_fStatusTable by exact Hblock.
  rewrite to_uint32_small by (unfold Int32.modulus; lia).
  assert (i < length vals)%nat as Hi
    by (apply lookup_lt_is_Some_1; eexists; exact Hv).
  unfold load32.
  replace (take 4 (drop (Z.to_nat (offStatus X tb sb + 4 * Z.of_nat i))
                     (flat_image be ver X tb sb vals stripped block)))
    with (int_bytes be 4 (Int32.to_uint32 v)).
  - rewrite int_value_int_bytes_4.
    + apply to_int32_to_uint32. exact Hrange.
    + unfold Int32.to_uint32, Int32.modulus. apply Z.mod_pos_bound. lia.
  - symmetry.
    rewrite <- (length_int_bytes be 4 (Int32.to_uint32 v)) at 1.
    apply slice_lookup. rewrite length_int_bytes. intros k Hk.
    replace (Z.to_nat (offStatus X tb sb + 4 * Z.of_nat i) + k)%nat
      with (Z.to_nat (offStatus X tb sb) + (4 * i + k))%nat by lia.
    rewrite image_status
      by (try exact Hblock; rewrite ?length_i32_bytes; lia).
    apply i32_bytes_lookup; assumption.
Qed.

Lemma flattenData_status_table_round_trip_witness :
  Int32.to_int32
    (load32 false sample_blob
       (load32 false sample_blob Header.fStatusTable + 4 * Z.of_nat 2))
  = 2.
Proof.
  apply (flattenData_status_table_round_trip false sample_version
           sample_X sample_rb sample_blob
           (set_fStatus 0 (set_fStrippedRules [97; 98; 59] sample_rb))
           sample_table sample_sets [1; 0; 2; 1; 2] 2 2
           eq_refl eq_refl eq_refl eq_refl eq_refl eq_refl).
  unfold Int32.max_signed. lia.
Defined.

(** ** The constructor *)

Lemma fStatus_ctor_init rules parseErr status :
  fStatus (ctor_init rules parseErr status) = status.
Proof. destruct parseErr; reflexivity. Qed.

(** A builder that the constructor leaves with a success status is fully
    populated: the status was a success on entry, the four [new] were
    evaluated, none of the four pointers is [NULL], and the destructor of
    that builder dereferences no [NULL] pointer. *)
Theorem ctor_success_means_populated X rules parseErr status :
  U_FAILURE (fStatus (fst (RBBIRuleBuilder_ctor X rules parseErr status)))
  = false ->
  U_FAILURE status = false
  /\ snd (RBBIRuleBuilder_ctor X rules parseErr status)
     = [new_fUSetNodes; new_fRuleStatusVals; new_fScanner; new_fSetBuilder]
  /\ is_Some (fUSetNodes
                (fst (RBBIRuleBuilder_ctor X rules parseErr status)))
  /\ is_Some (fRuleStatusVals
                (fst (RBBIRuleBuilder_ctor X rules parseErr status)))
  /\ is_Some (fScanner
                (fst (RBBIRuleBuilder_ctor X rules parseErr status)))
  /\ is_Some (fSetBuilder
                (fst (RBBIRuleBuilder_ctor X rules parseErr status)))
  /\ exists freed,
       RBBIRuleBuilder_dtor
         (fst (RBBIRuleBuilder_ctor X rules parseErr status))
       = Ok freed.
Proof.
  unfold RBBIRuleBuilder_ctor, ctor_allocate.
  rewrite fStatus_ctor_init.
  destruct (U_FAILURE status) eqn:E0.
  { cbn [fst]. rewrite fStatus_ctor_init. congruence. }
  cbv zeta.
  match goal with
  | |- context [if U_FAILURE (fStatus ?r) then _ else _] => set (rb4 := r)
  end.
  destruct (U_FAILURE (fStatus rb4)) eqn:E1.
  { cbn [fst]. congruence. }
  destruct (bool_decide (is_Some (fSetBuilder rb4))) eqn:D1; cbn [negb orb];
    [| cbn; discriminate].
  destruct (bool_decide (is_Some (fScanner rb4))) eqn:D2; cbn [negb orb];
    [| cbn; discriminate].
  destruct (bool_decide (is_Some (fUSetNodes rb4))) eqn:D3; cbn [negb orb];
    [| cbn; discriminate].
  destruct (bool_decide (is_Some (fRuleStatusVals rb4))) eqn:D4;
    cbn [negb orb]; [| cbn; discriminate].
  apply bool_decide_eq_true in D1, D2, D3, D4.
  cbn [fst snd]. intros _.
  split; [reflexivity |]. split; [reflexivity |].
  split; [exact D3 |]. split; [exact D4 |]. split; [exact D2 |].
  split; [exact D1 |].
  unfold RBBIRuleBuilder_dtor. destruct D3 as [nodes ->].
  cbn [deref obind]. eexists. reflexivity.
Qed.

Lemma ctor_success_means_populated_witness :
  is_Some (fScanner
             (fst (RBBIRuleBuilder_ctor sample_X [97; 32; 98; 59] None
                     U_ZERO_ERROR)))
  /\ RBBIRuleBuilder_dtor
       (fst (RBBIRuleBuilder_ctor sample_X [97; 32; 98; 59] None
               U_ZERO_ERROR))
     = Ok [FreedUSetNodes; FreedSetBuilder; FreedScanner; FreedRuleStatusVals].
Proof.
  pose proof (ctor_success_means_populated sample_X [97; 32; 98; 59] None
                U_ZERO_ERROR eq_refl) as (_ & _ & _ & _ & H & _).
  split; [exact H | reflexivity].
Defined.

(** ** What build returns *)

(** A block build returns is the block flattenData returned. *)
Lemma build_Some_inv be ver X rb blob rb' :
  build be ver X rb = Ok (Some blob, rb') ->
  exists rb0, flattenData be ver X rb0 = Ok (Some blob, rb').
Proof.
  unfold build. intros H.
  repeat run_step H.
  injection H as -> ->. eexists. eassumption.
Qed.

(** The block build returns describes the builder build leaves: that
    builder has a table, a set builder, a status list and a scanner and a
    success status; and, when their sizes fit, the block is as long as its
    header says, the header holds the category count of the set builder
    and the byte lengths of its trie and of the stripped rules of the
    builder, and the trie section and the rule section hold that trie and
    those rules. *)
Theorem build_block_describes_the_builder be ver X rb blob rb' :
  build be ver X rb = Ok (Some blob, rb') ->
  exists tb sb vals,
    fForwardTable rb' = Some tb
    /\ fSetBuilder rb' = Some sb
    /\ fRuleStatusVals rb' = Some vals
    /\ is_Some (fScanner rb')
    /\ U_FAILURE (fStatus rb') = false
    /\ (flatten_fits X tb sb vals (fStrippedRules rb') = true ->
          Z.of_nat (length blob) = load32 be blob Header.fLength
          /\ load32 be blob Header.fCatCount
             = Int32.to_uint32 (getNumCharCategories sb)
          /\ load32 be blob Header.fTrieLen = getTrieSize sb
          /\ load32 be blob Header.fRuleSourceLen
             = 2 * Z.of_nat (length (fStrippedRules rb'))
          /\ take (length (serializeTrie sb))
               (drop (Z.to_nat (load32 be blob Header.fTrie)) blob)
             = serializeTrie sb
          /\ take (2 * length (fStrippedRules rb'))
               (drop (Z.to_nat (load32 be blob Header.fRuleSource)) blob)
             = u16_bytes be (fStrippedRules rb')).
Proof.
  intros HB.
  pose proof (build_result _ _ _ _ _ _ HB) as [B1 _].
  destruct (build_Some_inv _ _ _ _ _ _ HB) as [rb0 Hrun].
  pose proof (flattenData_builder_fields _ _ _ _ _ _ Hrun)
    as (K1 & K2 & K3 & K4 & K5).
  assert (U_FAILURE (fStatus rb0) = false) as F0.
  { destruct (U_FAILURE (fStatus rb0)) eqn:E; [| reflexivity].
    rewrite flattenData_failure in Hrun by exact E. discriminate. }
  assert (U_FAILURE (fStatus rb') = false) as F'.
  { destruct (U_FAILURE (fStatus rb')) eqn:E; [| reflexivity].
    specialize (B1 eq_refl). discriminate. }
  specialize (K5 F0).
  assert (exists sc tb sb vals,
            fScanner rb0 = Some sc /\ fForwardTable rb0 = Some tb
            /\ fSetBuilder rb0 = Some sb /\ fRuleStatusVals rb0 = Some vals)
    as (sc & tb & sb & vals & Hsc & Htb & Hsb & Hvals).
  { unfold flattenData in Hrun. rewrite F0 in Hrun.
    destruct (fScanner rb0) as [sc |]; [| discriminate].
    cbn [deref obind] in Hrun.
    cbn [set_fStrippedRules fForwardTable fSetBuilder fRuleStatusVals]
      in Hrun.
    destruct (fForwardTable rb0) as [tb |]; [| discriminate].
    destruct (fSetBuilder rb0) as [sb |]; [| discriminate].
    destruct (fRuleStatusVals rb0) as [vals |]; [| discriminate].
    exists sc, tb, sb, vals. repeat split. }
  exists tb, sb, vals.
  split; [congruence |]. split; [congruence |]. split; [congruence |].
  split; [rewrite K3, Hsc; eexists; reflexivity |].
  split; [exact F' |].
  rewrite K5. intros Hfits.
  destruct (flattenData_image _ _ _ _ _ _ _ _ _ Hrun Htb Hsb Hvals Hfits)
    as (block & -> & Hblock).
  set (stripped := stripRules X (fStrippedRules rb0)) in *.
  pose proof (flatten_fits_facts _ _ _ _ _ Hfits)
    as (_ & _ & _ & _ & _ & HE).
  pose proof (lengths_nonneg X tb sb vals stripped) as (HF & HR & HT & HS & HU).
  pose proof (offsets_ordered X tb sb vals stripped)
    as (H80 & HoR & HoT & HoS & HoU & HoE).
  unfold Int32.max_signed in HE.
  rewrite length_flat_image, Hblock.
  rewrite image_fLength, image_fCatCount, image_fTrieLen, image_fTrie,
    image_fRuleSource, image_fRuleSourceLen by exact Hblock.
  rewrite !(to_uint32_small (offEnd _ _ _ _ _)),
    !(to_uint32_small (offTrie _ _ _)), !(to_uint32_small (lenTrie _)),
    !(to_uint32_small (offRules _ _ _ _)), !(to_uint32_small (lenRules _))
    by (unfold Int32.modulus; lia).
  split; [lia |]. split; [reflexivity |]. split; [reflexivity |].
  split; [reflexivity |]. split.
  - apply slice_lookup. intros k Hk. apply image_trie; assumption.
  - rewrite <- (length_u16_bytes be stripped).
    apply slice_lookup. intros k Hk. apply image_rules; assumption.
Qed.

(** The block and the builder build returns for the sample session. *)
Lemma build_block_describes_the_builder_witness :
  exists blob rb',
    build false sample_version sample_X
      (fst (RBBIRuleBuilder_ctor sample_X [97; 32; 98; 59] None U_ZERO_ERROR))
    = Ok (Some blob, rb')
    /\ exists tb sb vals,
         fForwardTable rb' = Some tb /\ fSetBuilder rb' = Some sb
         /\ fRuleStatusVals rb' = Some vals
         /\ U_FAILURE (fStatus rb') = false.
Proof.
  destruct (build false sample_version sample_X
              (fst (RBBIRuleBuilder_ctor sample_X [97; 32; 98; 59] None
                      U_ZERO_ERROR)))
    as [[[blob |] rb'] | |] eqn:E; try (vm_compute in E; discriminate).
  exists blob, rb'. split; [reflexivity |].
  destruct (build_block_describes_the_builder _ _ _ _ _ _ E)
    as (tb & sb & vals & H1 & H2 & H3 & _ & H5 & _).
  exists tb, sb, vals. repeat split; assumption.
Defined.
